(** * 79BI tile editor: selection set, SQL synthesiser, validation gate

    A shallow embedding of the tile-editing logic of the dashboard
    front end.  The repository carries three copies of the editor
    component, and they have drifted apart:

    - [TileEditor]   src/frontend/src/components/TileEditor.tsx, lines 1-1248
    - [TileEditorB]  the second component in the same file, lines 1249-2431
    - [Part000]      src/unnamed/part_000, lines 42-1015

    Each copy is embedded in a module of its own; the interfaces they
    share (DimensionField, MeasureField, ...) are declared once.

    React state is modelled by explicit state passing: one handler call
    is one discrete event, it reads the state of the current render and
    yields the state of the next one.  The [Map] held in [fieldTableMap]
    is mutated in place by the handlers ([fieldTableMap.set]); since the
    same object is read back by the next render, the mutation is a
    field update of the state record. *)

From Stdlib Require Import ZArith Ascii.
From Stdlib Require String.
From stdpp Require Import base list gmap strings.

Local Open Scope Z_scope.

(** ** JavaScript string and array primitives used by the editor

    A JavaScript string is represented by the bytes of its UTF-8
    encoding, which is what a string literal of this file denotes.
    For well-formed strings equality, concatenation, emptiness and
    the substring relation are the same on code units and on bytes. *)

Module Js.

(** Errors a handler can raise. *)
Inductive Error : Type :=
| TypeError
| ReferenceError.

(** [String.prototype.toLowerCase] on the ASCII range: 'A'..'Z' go to
    'a'..'z', every other byte is kept.  (The case mapping of code
    points beyond ASCII is not modelled.) *)
Definition lowerAscii (c : ascii) : ascii :=
  let n := N_of_ascii c in
  if ((65 <=? n) && (n <=? 90))%N then ascii_of_N (n + 32) else c.

Fixpoint toLowerCase (s : string) : string :=
  match s with
  | EmptyString => EmptyString
  | String c s' => String (lowerAscii c) (toLowerCase s')
  end.

(** [String.prototype.includes]. *)
Fixpoint includes (s needle : string) : bool :=
  String.prefix needle s ||
  match s with
  | EmptyString => false
  | String _ s' => includes s' needle
  end.

(** White space as [trim] sees it: the WhiteSpace and LineTerminator
    code points of ECMAScript, recognised by their UTF-8 encodings.

    - one byte: TAB, LF, VT, FF, CR and SPACE;
    - two bytes: U+00A0 (C2 A0);
    - three bytes: U+1680 (E1 9A 80), U+2000..U+200A (E2 80 80..8A),
      U+2028 and U+2029 (E2 80 A8, E2 80 A9), U+202F (E2 80 AF),
      U+205F (E2 81 9F), U+3000 (E3 80 80) and U+FEFF (EF BB BF). *)
Definition isWhiteSpace (c : ascii) : bool :=
  let n := N_of_ascii c in
  ((9 <=? n) && (n <=? 13) || (n =? 32))%N.

Definition isWhiteSpace2 (c1 c2 : ascii) : bool :=
  ((N_of_ascii c1 =? 194) && (N_of_ascii c2 =? 160))%N.

Definition isWhiteSpace3 (c1 c2 c3 : ascii) : bool :=
  let n1 := N_of_ascii c1 in
  let n2 := N_of_ascii c2 in
  let n3 := N_of_ascii c3 in
  ((n1 =? 225) && (n2 =? 154) && (n3 =? 128)
   || (n1 =? 226) && (n2 =? 128)
      && ((128 <=? n3) && (n3 <=? 138) || (n3 =? 168) || (n3 =? 169) || (n3 =? 175))
   || (n1 =? 226) && (n2 =? 129) && (n3 =? 159)
   || (n1 =? 227) && (n2 =? 128) && (n3 =? 128)
   || (n1 =? 239) && (n2 =? 187) && (n3 =? 191))%N.

(** [trimStart]: drops the leading run of white space. *)
Fixpoint trimStart (s : string) : string :=
  match s with
  | EmptyString => EmptyString
  | String c1 s1 =>
      if isWhiteSpace c1 then trimStart s1
      else
        match s1 with
        | EmptyString => s
        | String c2 s2 =>
            if isWhiteSpace2 c1 c2 then trimStart s2
            else
              match s2 with
              | EmptyString => s
              | String c3 s3 =>
                  if isWhiteSpace3 c1 c2 c3 then trimStart s3 else s
              end
        end
  end.

(** [trimEnd]: drops the trailing run of white space, that is, the
    longest suffix that is white space throughout.  (No encoding of a
    white space code point starts with a continuation byte, so such a
    suffix starts at a code point.) *)
Fixpoint trimEnd (s : string) : string :=
  match s with
  | EmptyString => EmptyString
  | String c s' =>
      match trimStart s with
      | EmptyString => EmptyString
      | String _ _ => String c (trimEnd s')
      end
  end.

(** [String.prototype.trim]. *)
Definition trim (s : string) : string := trimEnd (trimStart s).

(** Truthiness of a string value: every string but the empty one. *)
Definition truthy (s : string) : bool :=
  match s with
  | EmptyString => false
  | String _ _ => true
  end.

(** [a || b] on string values. *)
Definition orElse (a b : string) : string := if truthy a then a else b.

(** [a || b] where [a] may be [undefined]. *)
Definition orUndef (a : option string) (b : string) : string :=
  match a with
  | Some x => orElse x b
  | None => b
  end.

(** A value interpolated into a template literal: [undefined] prints
    as the nine letters of its name. *)
Definition interpolate (a : option string) : string :=
  match a with
  | Some x => x
  | None => "undefined"
  end.

(** [Array.prototype.join]. *)
Definition join (sep : string) (l : list string) : string :=
  String.concat sep l.

(** [Set.prototype.add] on a set kept in insertion order. *)
Definition setAdd (x : string) (s : list string) : list string :=
  if decide (x ∈ s) then s else s ++ [x].

(** [Array.prototype.splice(start, deleteCount)] with no items to
    insert, for integer arguments: the array left behind.  A negative
    [start] counts from the end, and both bounds are clamped. *)
Definition splice {A} (l : list A) (start deleteCount : Z) : list A :=
  let len := Z.of_nat (length l) in
  let actualStart :=
    if start <? 0 then Z.max (len + start) 0 else Z.min start len in
  let actualDeleteCount :=
    Z.min (Z.max deleteCount 0) (len - actualStart) in
  take (Z.to_nat actualStart) l
    ++ drop (Z.to_nat (actualStart + actualDeleteCount)) l.

(** The line feed of a template literal's [\n]. *)
Definition LF : string := String (ascii_of_N 10) EmptyString.

(** U+00A0, the no-break space. *)
Definition NBSP : string :=
  String (ascii_of_N 194) (String (ascii_of_N 160) EmptyString).

End Js.

(** ** Data model (the interfaces at the head of each copy) *)

Record DimensionField : Type := mkDimension {
  dim_fieldId : string;
  dim_fieldName : string;
  dim_aggregation : option string
}.

Record MeasureField : Type := mkMeasure {
  fieldId : string;
  fieldName : string;
  aggregation : string;
  alias : option string
}.

Record TextRow : Type := mkTextRow {
  row_id : string;
  row_type : string;
  content : string;
  isQuery : bool
}.

(** [type] is declared a string, but the schema loader builds it as
    [column.type || column.data_type], which is [undefined] when the
    column carries neither; hence the option. *)
Record DatabaseField : Type := mkField {
  name : string;
  type_ : option string;
  table : string;
  description : option string
}.

#[global] Instance DimensionField_eq_dec : EqDecision DimensionField.
Proof. solve_decision. Defined.
#[global] Instance MeasureField_eq_dec : EqDecision MeasureField.
Proof. solve_decision. Defined.
#[global] Instance TextRow_eq_dec : EqDecision TextRow.
Proof. solve_decision. Defined.

(** The editor state held by the component's [useState] hooks (the
    part the handlers below read or write). *)
Record EditorState : Type := mkState {
  st_name : string;
  st_description : string;
  tileType : string;
  st_connectionId : string;
  chartType : string;
  textRows : list TextRow;
  isQueryMode : bool;
  customQuery : string;
  dimensions : list DimensionField;
  measures : list MeasureField;
  saving : bool;
  error : string;
  fieldTableMap : gmap string string
}.

Definition setDimensions (v : list DimensionField) (st : EditorState) : EditorState :=
  mkState (st_name st) (st_description st) (tileType st) (st_connectionId st)
    (chartType st) (textRows st) (isQueryMode st) (customQuery st)
    v (measures st) (saving st) (error st) (fieldTableMap st).

Definition setMeasures (v : list MeasureField) (st : EditorState) : EditorState :=
  mkState (st_name st) (st_description st) (tileType st) (st_connectionId st)
    (chartType st) (textRows st) (isQueryMode st) (customQuery st)
    (dimensions st) v (saving st) (error st) (fieldTableMap st).

Definition setError (v : string) (st : EditorState) : EditorState :=
  mkState (st_name st) (st_description st) (tileType st) (st_connectionId st)
    (chartType st) (textRows st) (isQueryMode st) (customQuery st)
    (dimensions st) (measures st) (saving st) v (fieldTableMap st).

Definition setSaving (v : bool) (st : EditorState) : EditorState :=
  mkState (st_name st) (st_description st) (tileType st) (st_connectionId st)
    (chartType st) (textRows st) (isQueryMode st) (customQuery st)
    (dimensions st) (measures st) v (error st) (fieldTableMap st).

(** [fieldTableMap.set(k, v)]: the map object is updated in place. *)
Definition fieldTableMap_set (k v : string) (st : EditorState) : EditorState :=
  mkState (st_name st) (st_description st) (tileType st) (st_connectionId st)
    (chartType st) (textRows st) (isQueryMode st) (customQuery st)
    (dimensions st) (measures st) (saving st) (error st)
    (<[k := v]> (fieldTableMap st)).

Definition setName (v : string) (st : EditorState) : EditorState :=
  mkState v (st_description st) (tileType st) (st_connectionId st)
    (chartType st) (textRows st) (isQueryMode st) (customQuery st)
    (dimensions st) (measures st) (saving st) (error st) (fieldTableMap st).

Definition setDescription (v : string) (st : EditorState) : EditorState :=
  mkState (st_name st) v (tileType st) (st_connectionId st)
    (chartType st) (textRows st) (isQueryMode st) (customQuery st)
    (dimensions st) (measures st) (saving st) (error st) (fieldTableMap st).

Definition setTileType (v : string) (st : EditorState) : EditorState :=
  mkState (st_name st) (st_description st) v (st_connectionId st)
    (chartType st) (textRows st) (isQueryMode st) (customQuery st)
    (dimensions st) (measures st) (saving st) (error st) (fieldTableMap st).

Definition setConnectionId (v : string) (st : EditorState) : EditorState :=
  mkState (st_name st) (st_description st) (tileType st) v
    (chartType st) (textRows st) (isQueryMode st) (customQuery st)
    (dimensions st) (measures st) (saving st) (error st) (fieldTableMap st).

Definition setChartType (v : string) (st : EditorState) : EditorState :=
  mkState (st_name st) (st_description st) (tileType st) (st_connectionId st)
    v (textRows st) (isQueryMode st) (customQuery st)
    (dimensions st) (measures st) (saving st) (error st) (fieldTableMap st).

Definition setTextRows (v : list TextRow) (st : EditorState) : EditorState :=
  mkState (st_name st) (st_description st) (tileType st) (st_connectionId st)
    (chartType st) v (isQueryMode st) (customQuery st)
    (dimensions st) (measures st) (saving st) (error st) (fieldTableMap st).

Definition setIsQueryMode (v : bool) (st : EditorState) : EditorState :=
  mkState (st_name st) (st_description st) (tileType st) (st_connectionId st)
    (chartType st) (textRows st) v (customQuery st)
    (dimensions st) (measures st) (saving st) (error st) (fieldTableMap st).

Definition setCustomQuery (v : string) (st : EditorState) : EditorState :=
  mkState (st_name st) (st_description st) (tileType st) (st_connectionId st)
    (chartType st) (textRows st) (isQueryMode st) v
    (dimensions st) (measures st) (saving st) (error st) (fieldTableMap st).

(** The state of a freshly mounted editor. *)
Definition initialState : EditorState :=
  mkState "" "" "chart" "" "bar" [mkTextRow "1" "header" "" false]
    false "" [] [] false "" ∅.

(** The configuration payload.  [cfg_sqlQuery] is [metadata.sqlQuery];
    [sortBy] and [limit] are declared by the interface but no copy
    ever writes or reads them. *)
Record TileConfig : Type := mkConfig {
  cfg_chartType : option string;
  cfg_uiChartType : option string;
  cfg_uiType : option string;
  cfg_dimensions : option (list DimensionField);
  cfg_measures : option (list MeasureField);
  cfg_textRows : option (list TextRow);
  cfg_connectionId : option string;
  cfg_customQuery : option string;
  cfg_isQueryMode : option bool;
  cfg_sqlQuery : option string;
  cfg_measure : option MeasureField
}.

(** [{}] *)
Definition emptyConfig : TileConfig :=
  mkConfig None None None None None None None None None None None.

Definition config_set_connectionId (v : option string) (c : TileConfig) : TileConfig :=
  mkConfig (cfg_chartType c) (cfg_uiChartType c) (cfg_uiType c) (cfg_dimensions c)
    (cfg_measures c) (cfg_textRows c) v (cfg_customQuery c)
    (cfg_isQueryMode c) (cfg_sqlQuery c) (cfg_measure c).

Record TilePosition : Type := mkPosition { pos_x : Z; pos_y : Z; pos_w : Z; pos_h : Z }.

(** The [tile] prop: [Tile] of the first copy, [TileData] of the
    second (which adds the optional layout members and lets [id] be
    absent). *)
Record Tile : Type := mkTile {
  tile_id : option string;
  tile_title : string;
  tile_type : string;
  tile_description : option string;
  tile_connectionId : option string;
  tile_config : option TileConfig;
  tile_x : option Z;
  tile_y : option Z;
  tile_w : option Z;
  tile_h : option Z;
  tile_position : option TilePosition
}.

Record CreateTileDto : Type := mkDto {
  dto_title : string;
  dto_description : option string;
  dto_type : string;
  dto_dashboardId : string;
  dto_connectionId : option string;
  dto_config : TileConfig;
  dto_position : option TilePosition
}.

(** What a save attempt does to the outside world, in order. *)
Inductive Effect : Type :=
| UpdateTile (id : string) (tileData : CreateTileDto)
| CreateTile (tileData : CreateTileDto)
| OnSave
| OnClose.

(** How the awaited persistence call settles. *)
Inductive NetResult : Type :=
| Resolved
| RejectedError (message : string)
| RejectedOther.

(** [fieldTableMap.get(id) || 'unknown_table'] *)
Definition resolveTable (m : gmap string string) (id : string) : string :=
  Js.orUndef (m !! id) "unknown_table".

(** [x || undefined] for a string state value. *)
Definition orUndefined (x : string) : option string :=
  if Js.truthy x then Some x else None.

(** [tile?.id] when truthy. *)
Definition tileIdOf (tile : option Tile) : option string :=
  match tile with
  | Some t => match tile_id t with
              | Some i => if Js.truthy i then Some i else None
              | None => None
              end
  | None => None
  end.

(** The marker the single-line generators put after the FROM table. *)
Definition joinMarker : string := "/* JOIN logic needed for multiple tables */".

(** ** First copy: TileEditor.tsx, lines 1-1248 *)

Module TileEditor.

(** Lines 564-568.  The [!field] half of the guard concerns a null
    argument, which the parameter type excludes; [!field.type] covers
    both the absent and the empty type. *)
Definition numericTypes : list string :=
  ["int"; "integer"; "number"; "float"; "double"; "decimal"; "numeric";
   "bigint"; "smallint"; "real"].

Definition isNumericField (field : DatabaseField) : bool :=
  match type_ field with
  | None => false
  | Some ty =>
      if negb (Js.truthy ty) then false
      else existsb (fun type => Js.includes (Js.toLowerCase ty) type) numericTypes
  end.

(** Lines 440-453. *)
Definition handleAddDimension (field : DatabaseField) (st : EditorState) : EditorState :=
  let fieldId := table field +:+ "." +:+ name field in
  let dimension := mkDimension fieldId (name field) None in
  if negb (existsb (fun d => bool_decide (dim_fieldId d = fieldId)) (dimensions st))
  then fieldTableMap_set fieldId (table field)
         (setDimensions (dimensions st ++ [dimension]) st)
  else st.

(** Lines 455-459. *)
Definition handleRemoveDimension (index : Z) (st : EditorState) : EditorState :=
  let newDimensions := Js.splice (dimensions st) index 1 in
  setDimensions newDimensions st.

(** Lines 461-482. *)
Definition handleAddMeasure (field : DatabaseField) (st : EditorState) : EditorState :=
  if negb (isNumericField field) then st
  else
    let exists_ := existsb (fun m => bool_decide (fieldId m = name field)) (measures st) in
    if negb exists_ then
      let newMeasure :=
        mkMeasure (name field) (name field) "sum" (Some (name field +:+ "_sum")) in
      fieldTableMap_set (fieldId newMeasure) (table field)
        (setMeasures (measures st ++ [newMeasure]) st)
    else st.

(** Lines 532-561.  The two [forEach] loops are folds that thread
    the table set and the column array. *)
Definition generateSqlQuery (st : EditorState) : string :=
  if ((length (dimensions st) =? 0) || (length (measures st) =? 0))%nat then ""
  else
    let '(tables, dimensionColumns) :=
      fold_left
        (fun '(tables, cols) dim =>
           let table := resolveTable (fieldTableMap st) (dim_fieldId dim) in
           (Js.setAdd table tables,
            cols ++ [table +:+ "." +:+ dim_fieldName dim]))
        (dimensions st) ([], []) in
    let '(tables, measureColumns) :=
      fold_left
        (fun '(tables, cols) measure =>
           let table := resolveTable (fieldTableMap st) (fieldId measure) in
           (Js.setAdd table tables,
            cols ++ [aggregation measure +:+ "(" +:+ table +:+ "."
                     +:+ fieldName measure +:+ ") as "
                     +:+ Js.orUndef (alias measure) (fieldName measure)]))
        (measures st) (tables, []) in
    let tablesList := tables in
    let selectClause := Js.join ", " (dimensionColumns ++ measureColumns) in
    let fromClause := Js.interpolate (head tablesList) in
    let groupByClause :=
      if (0 <? length dimensionColumns)%nat
      then "GROUP BY " +:+ Js.join ", " dimensionColumns else "" in
    "SELECT " +:+ selectClause +:+ " " +:+ Js.LF +:+ "FROM " +:+ fromClause
      +:+ " " +:+ Js.LF +:+ groupByClause.

(** [textRows.length > 0 && textRows.some(row => row.content.trim())] *)
Definition hasTextContent (rows : list TextRow) : bool :=
  (0 <? length rows)%nat
  && existsb (fun row => Js.truthy (Js.trim (content row))) rows.

(** Lines 205-225.  The function returns the operand an [&&] chain
    stops at; its callers only test the result, so the model is the
    truthiness of that operand. *)
Definition isValid (st : EditorState) : bool :=
  if negb (Js.truthy (Js.trim (st_name st))) then false
  else if bool_decide (tileType st = "chart") || bool_decide (tileType st = "table")
  then Js.truthy (st_connectionId st)
       && (0 <? length (dimensions st))%nat && (0 <? length (measures st))%nat
  else if bool_decide (tileType st = "metric")
  then Js.truthy (st_connectionId st) && (0 <? length (measures st))%nat
  else if bool_decide (tileType st = "text")
  then hasTextContent (textRows st)
  else if bool_decide (tileType st = "query")
  then if isQueryMode st
       then Js.truthy (st_connectionId st)
            && (0 <? String.length (Js.trim (customQuery st)))%nat
       else hasTextContent (textRows st)
  else false.

(** The first [switch] of [handleSave] (lines 582-650): the
    configuration per tile kind, or [None] where the metric case
    returns early. *)
Definition handleSave_config (st : EditorState) : option TileConfig :=
  if bool_decide (tileType st = "chart") then
    Some (mkConfig (Some (chartType st)) None (Some "chart")
            (Some (dimensions st)) (Some (measures st)) None None None None
            (Some (generateSqlQuery st)) None)
  else if bool_decide (tileType st = "table") then
    Some (mkConfig (Some "bar") (Some "table") (Some "table")
            (Some (dimensions st)) (Some (measures st)) None None None None
            (Some (generateSqlQuery st)) None)
  else if bool_decide (tileType st = "metric") then
    if (length (measures st) =? 0)%nat then None
    else Some (mkConfig None None (Some "metric") None None None None None None
                 (Some (generateSqlQuery st)) (head (measures st)))
  else if bool_decide (tileType st = "text") then
    Some (mkConfig None None (Some "text") None None (Some (textRows st))
            None None (Some false) None None)
  else if bool_decide (tileType st = "query") then
    if isQueryMode st then
      Some (mkConfig None None (Some "query") None None None None
              (Some (customQuery st)) (Some true) (Some (customQuery st)) None)
    else
      Some (mkConfig None None (Some "query") None None (Some (textRows st))
              None None (Some false) None None)
  else Some emptyConfig.

(** The second [switch] of [handleSave] (lines 660-675). *)
Definition handleSave_backendType (tileType : string) : string :=
  if bool_decide (tileType = "chart") || bool_decide (tileType = "table") then "chart"
  else if bool_decide (tileType = "metric") then "kpi"
  else if bool_decide (tileType = "text") || bool_decide (tileType = "query") then "text"
  else "chart".

(** Lines 571-699.  [net] is how the awaited [updateTile] or
    [createTile] call settles for the data it is given. *)
Definition handleSave (tile : option Tile) (dashboardId : string)
    (net : CreateTileDto -> NetResult) (st : EditorState)
    : EditorState * list Effect :=
  if negb (isValid st) then
    (setSaving false (setError "Invalid tile configuration" st), [])
  else
    let st := setSaving true (setError "" st) in
    match handleSave_config st with
    | None =>
        (setSaving false
           (setSaving false
              (setError "At least one measure is required for a metric tile" st)),
         [])
    | Some config =>
        let config :=
          if Js.truthy (st_connectionId st)
          then config_set_connectionId (Some (st_connectionId st)) config
          else config in
        let backendType := handleSave_backendType (tileType st) in
        let tileData :=
          mkDto (st_name st) (orUndefined (st_description st)) backendType
            dashboardId (orUndefined (st_connectionId st)) config None in
        let call :=
          match tileIdOf tile with
          | Some id => UpdateTile id tileData
          | None => CreateTile tileData
          end in
        match net tileData with
        | Resolved => (setSaving false st, [call; OnSave; OnClose])
        | RejectedError message =>
            (setSaving false (setError ("Failed to save tile: " +:+ message) st),
             [call])
        | RejectedOther =>
            (setSaving false (setError "Failed to save tile: Unknown error" st),
             [call])
        end
    end.

(** Lines 248-268: the effect that fills the form from the [tile]
    prop when an existing tile is opened. *)
Definition tileInitEffect (tile : option Tile) (open : bool)
    (st : EditorState) : EditorState :=
  match tile with
  | None => st
  | Some tile =>
      if negb open then st
      else
        let st := setName (Js.orElse (tile_title tile) "") st in
        let st := setDescription (Js.orUndef (tile_description tile) "") st in
        let st := setTileType (Js.orElse (tile_type tile) "chart") st in
        match tile_config tile with
        | None => st
        | Some config =>
            let st := setChartType (Js.orUndef (cfg_chartType config) "bar") st in
            let st := setDimensions (default [] (cfg_dimensions config)) st in
            let st := setMeasures (default [] (cfg_measures config)) st in
            let st :=
              match tile_connectionId tile with
              | Some c => if Js.truthy c then setConnectionId c st else st
              | None => st
              end in
            match cfg_textRows config with
            | Some rows =>
                if bool_decide (tile_type tile = "text") then setTextRows rows st else st
            | None => st
            end
        end
  end.

(** Lines 484-488. *)
Definition handleRemoveMeasure (index : Z) (st : EditorState) : EditorState :=
  let newMeasures := Js.splice (measures st) index 1 in
  setMeasures newMeasures st.

(** Lines 490-496, for an integer index.  [updated[index]] is
    [undefined] outside the array (a negative index is just an absent
    property), and assigning to a member of [undefined] raises.  Inside
    the array the measure object is updated in place; the copy made by
    the spread is shallow, so the list of the next render holds the
    same entries with one aggregation replaced. *)
Definition handleMeasureAggregationChange (index : Z) (aggregation' : string)
    (st : EditorState) : Js.Error + EditorState :=
  if index <? 0 then inl Js.TypeError
  else
    match measures st !! Z.to_nat index with
    | None => inl Js.TypeError
    | Some m =>
        inr (setMeasures
               (<[Z.to_nat index :=
                    mkMeasure (fieldId m) (fieldName m) aggregation' (alias m)]>
                  (measures st))
               st)
    end.

(** Lines 499-508.  [uuid] is what [uuidv4()] yields for this call. *)
Definition handleAddTextRow (uuid : string) (st : EditorState) : EditorState :=
  let newRow := mkTextRow uuid "text" "" false in
  setTextRows (textRows st ++ [newRow]) st.

(** Lines 510-514. *)
Definition handleTextRowContentChange (id content' : string)
    (st : EditorState) : EditorState :=
  setTextRows
    (map (fun row =>
            if bool_decide (row_id row = id)
            then mkTextRow (row_id row) (row_type row) content' (isQuery row)
            else row)
       (textRows st))
    st.

(** Lines 516-520. *)
Definition handleToggleRowQueryMode (id : string) (st : EditorState) : EditorState :=
  setTextRows
    (map (fun row =>
            if bool_decide (row_id row = id)
            then mkTextRow (row_id row) (row_type row) (content row) (negb (isQuery row))
            else row)
       (textRows st))
    st.

(** Lines 522-524. *)
Definition handleRemoveTextRow (id : string) (st : EditorState) : EditorState :=
  setTextRows (filter (fun row => row_id row <> id) (textRows st)) st.

(** Lines 526-530. *)
Definition handleTextRowTypeChange (id type' : string) (st : EditorState) : EditorState :=
  setTextRows
    (map (fun row =>
            if bool_decide (row_id row = id)
            then mkTextRow (row_id row) type' (content row) (isQuery row)
            else row)
       (textRows st))
    st.

Section Connections.

(** [DatabaseConnection] is declared by the connection service; the
    editor reads its [id] only. *)
Context {DatabaseConnection : Type}.
Variable conn_id : DatabaseConnection -> string.

(** Lines 419-438.  The second component is the value
    [setSelectedConnection] is called with. *)
Definition handleConnectionChange (connections : list DatabaseConnection)
    (connectionValue : string) (st : EditorState)
    : EditorState * option DatabaseConnection :=
  let st := setConnectionId connectionValue st in
  let st := setDimensions [] st in
  let st := setMeasures [] st in
  if Js.truthy connectionValue then
    (st, find (fun c => bool_decide (conn_id c = connectionValue)) connections)
  else (st, None).

End Connections.

End TileEditor.

(** ** Second copy: TileEditor.tsx, lines 1249-2431 *)

Module TileEditorB.

(** Lines 2000-2003.  No guard on the type: [toLowerCase] is called
    on whatever [field.type] holds and raises on [undefined]. *)
Definition numericTypes : list string :=
  ["number"; "integer"; "int"; "float"; "decimal"; "double"; "numeric"].

Definition isNumericField (field : DatabaseField) : Js.Error + bool :=
  match type_ field with
  | None => inl Js.TypeError
  | Some ty =>
      inr (existsb (fun type => Js.includes (Js.toLowerCase ty) type) numericTypes)
  end.

(** Lines 1967-1997. *)
Definition generateSqlQuery (st : EditorState) : string :=
  if ((length (dimensions st) =? 0) || (length (measures st) =? 0))%nat then ""
  else
    let '(tables, dimensionColumns) :=
      fold_left
        (fun '(tables, cols) dim =>
           let table := resolveTable (fieldTableMap st) (dim_fieldId dim) in
           (Js.setAdd table tables,
            cols ++ [table +:+ "." +:+ dim_fieldName dim]))
        (dimensions st) ([], []) in
    let '(tables, measureColumns) :=
      fold_left
        (fun '(tables, cols) measure =>
           let table := resolveTable (fieldTableMap st) (fieldId measure) in
           (Js.setAdd table tables,
            cols ++ [aggregation measure +:+ "(" +:+ table +:+ "."
                     +:+ fieldName measure +:+ ") as "
                     +:+ Js.interpolate (alias measure)]))
        (measures st) (tables, []) in
    let tablesList := tables in
    let selectClause := Js.join ", " (dimensionColumns ++ measureColumns) in
    let fromClause := Js.interpolate (head tablesList) in
    let groupByClause :=
      if (0 <? length dimensionColumns)%nat
      then "GROUP BY " +:+ Js.join ", " dimensionColumns else "" in
    "SELECT " +:+ selectClause +:+ " FROM " +:+ fromClause +:+ " "
      +:+ (if (1 <? length tablesList)%nat then joinMarker else "")
      +:+ " " +:+ groupByClause.

(** Lines 1811-1833: the gate names its reason through [setError]. *)
Definition isValid (st : EditorState) : bool * EditorState :=
  if negb (Js.truthy (Js.trim (st_name st))) then
    (false, setError "Title is required" st)
  else if bool_decide (tileType st = "chart") && (length (measures st) =? 0)%nat then
    (false, setError "At least one measure is required for a chart" st)
  else if bool_decide (tileType st = "metric") && (length (measures st) =? 0)%nat then
    (false, setError "At least one measure is required for a metric tile" st)
  else if (bool_decide (tileType st = "chart") || bool_decide (tileType st = "table")
           || bool_decide (tileType st = "metric"))
          && negb (Js.truthy (st_connectionId st)) then
    (false, setError "A connection is required for this tile type" st)
  else (true, st).

(** Lines 2022-2034.  [tile.x || 0] and its siblings: a zero member
    takes the default. *)
Definition getTilePosition (tile : option Tile) : option TilePosition :=
  match tile with
  | None => None
  | Some t =>
      match tile_position t with
      | Some p => Some p
      | None =>
          match tile_x t with
          | Some x =>
              let num (v : option Z) (d : Z) : Z :=
                match v with
                | Some n => if n =? 0 then d else n
                | None => d
                end in
              Some (mkPosition (num (Some x) 0) (num (tile_y t) 0)
                      (num (tile_w t) 2) (num (tile_h t) 2))
          | None => None
          end
      end
  end.

(** The first [switch] of [handleSave] (lines 1846-1906). *)
Definition handleSave_config (st : EditorState) : option TileConfig :=
  if bool_decide (tileType st = "chart") then
    Some (mkConfig (Some (chartType st)) (Some (chartType st)) (Some "chart")
            (Some (dimensions st)) (Some (measures st)) None None None None
            (Some (generateSqlQuery st)) None)
  else if bool_decide (tileType st = "table") then
    Some (mkConfig (Some "bar") (Some "table") (Some "table")
            (Some (dimensions st)) (Some (measures st)) None None None None
            (Some (generateSqlQuery st)) None)
  else if bool_decide (tileType st = "metric") then
    if (length (measures st) =? 0)%nat then None
    else Some (mkConfig None None (Some "metric") None (Some (measures st))
                 None None None None
                 (Some (generateSqlQuery st)) (head (measures st)))
  else if bool_decide (tileType st = "text") then
    Some (mkConfig None None (Some "text") None None (Some (textRows st))
            None None (Some false) None None)
  else if bool_decide (tileType st = "query") then
    Some (mkConfig None None (Some "query") None None
            (Some (if isQueryMode st then [] else textRows st))
            (if isQueryMode st then Some (st_connectionId st) else None)
            (if isQueryMode st then Some (customQuery st) else None)
            (Some (isQueryMode st)) None None)
  else Some emptyConfig.

(** The second [switch] of [handleSave] (lines 1915-1930). *)
Definition handleSave_backendType (tileType : string) : string :=
  if bool_decide (tileType = "chart") || bool_decide (tileType = "table") then "chart"
  else if bool_decide (tileType = "metric") then "kpi"
  else if bool_decide (tileType = "text") || bool_decide (tileType = "query") then "text"
  else "chart".

(** Lines 1835-1965. *)
Definition handleSave (tile : option Tile) (dashboardId : string)
    (net : CreateTileDto -> NetResult) (st : EditorState)
    : EditorState * list Effect :=
  let '(valid, st) := isValid st in
  if negb valid then (setSaving false st, [])
  else
    let st := setSaving true (setError "" st) in
    match handleSave_config st with
    | None =>
        (setSaving false
           (setSaving false
              (setError "At least one measure is required for a metric tile" st)),
         [])
    | Some config =>
        let config :=
          if Js.truthy (st_connectionId st)
          then config_set_connectionId (Some (st_connectionId st)) config
          else config in
        let backendType := handleSave_backendType (tileType st) in
        let tileData :=
          mkDto (st_name st) (orUndefined (st_description st)) backendType
            dashboardId (orUndefined (st_connectionId st)) config
            (getTilePosition tile) in
        let call :=
          match tileIdOf tile with
          | Some id => UpdateTile id tileData
          | None => CreateTile tileData
          end in
        match net tileData with
        | Resolved => (setSaving false st, [call; OnSave; OnClose])
        | RejectedError message =>
            (setSaving false (setError ("Failed to save tile: " +:+ message) st),
             [call])
        | RejectedOther =>
            (setSaving false (setError "Failed to save tile: Unknown error" st),
             [call])
        end
    end.

(** Lines 1465-1478.  The toggle group passes [null] when the active
    button is clicked again. *)
Definition handleTileTypeChange (newTileType : option string)
    (st : EditorState) : EditorState :=
  match newTileType with
  | None => st
  | Some k =>
      if Js.truthy k then
        let st := setTileType k st in
        let st := if bool_decide (k = "table") then setChartType "bar" st else st in
        if negb (bool_decide (k = "query"))
        then setCustomQuery "" (setIsQueryMode false st)
        else st
      else st
  end.

(** Lines 1782-1786, for an integer index: as for the aggregation of a
    measure, a row outside the array raises. *)
Definition handleTextChange (index : Z) (value : string)
    (st : EditorState) : Js.Error + EditorState :=
  if index <? 0 then inl Js.TypeError
  else
    match textRows st !! Z.to_nat index with
    | None => inl Js.TypeError
    | Some row =>
        inr (setTextRows
               (<[Z.to_nat index :=
                    mkTextRow (row_id row) (row_type row) value (isQuery row)]>
                  (textRows st))
               st)
    end.

Section Init.

(** [uuidv4 k] is the identifier the k-th call of [uuidv4()] yields
    during one run of the effect. *)
Variable uuidv4 : nat -> string.

(** [rows.map(row => ({...row, id: row.id || uuidv4()}))] *)
Fixpoint fillIds (k : nat) (rows : list TextRow) : list TextRow :=
  match rows with
  | [] => []
  | row :: rest =>
      if Js.truthy (row_id row) then row :: fillIds k rest
      else mkTextRow (uuidv4 k) (row_type row) (content row) (isQuery row)
             :: fillIds (S k) rest
  end.

(** Lines 1551-1618. *)
Definition tileInitEffect (tile : option Tile) (open : bool)
    (st : EditorState) : EditorState :=
  match tile with
  | None => st
  | Some tile =>
      if negb open then st
      else
        let st := setName (Js.orElse (tile_title tile) "") st in
        let st := setDescription (Js.orUndef (tile_description tile) "") st in
        let uiType :=
          match tile_config tile with
          | Some c => match cfg_uiType c with
                      | Some u => if Js.truthy u then Some u else None
                      | None => None
                      end
          | None => None
          end in
        let st :=
          match uiType with
          | Some u => setTileType u st
          | None =>
              if bool_decide (tile_type tile = "chart") then setTileType "chart" st
              else if bool_decide (tile_type tile = "text") then setTileType "text" st
              else if bool_decide (tile_type tile = "kpi") then setTileType "metric" st
              else setTileType "chart" st
          end in
        let st :=
          match orUndefined (Js.orUndef (tile_connectionId tile) "") with
          | Some c => setConnectionId c st
          | None =>
              match tile_config tile with
              | Some c =>
                  match orUndefined (Js.orUndef (cfg_connectionId c) "") with
                  | Some c' => setConnectionId c' st
                  | None => st
                  end
              | None => st
              end
          end in
        match tile_config tile with
        | None => st
        | Some config =>
            let st :=
              match orUndefined (Js.orUndef (cfg_uiChartType config) "") with
              | Some u => setChartType u st
              | None =>
                  match orUndefined (Js.orUndef (cfg_chartType config) "") with
                  | Some c => setChartType c st
                  | None => st
                  end
              end in
            let st :=
              match cfg_dimensions config with
              | Some ds => setDimensions ds st
              | None => st
              end in
            let st :=
              match cfg_measures config with
              | Some ms => setMeasures ms st
              | None =>
                  match cfg_measure config with
                  | Some m => setMeasures [m] st
                  | None => st
                  end
              end in
            let st :=
              match cfg_textRows config with
              | Some rows => setTextRows (fillIds 0 rows) st
              | None => st
              end in
            match cfg_isQueryMode config with
            | Some true =>
                let st := setIsQueryMode true st in
                match orUndefined (Js.orUndef (cfg_customQuery config) "") with
                | Some q => setCustomQuery q st
                | None => st
                end
            | _ => st
            end
        end
  end.

End Init.

End TileEditorB.

(** ** Third copy: src/unnamed/part_000 *)

Module Part000.

(** Lines 568-571. *)
Definition numericTypes : list string :=
  ["number"; "integer"; "int"; "float"; "decimal"; "double"; "numeric"].

Definition isNumericField (field : DatabaseField) : Js.Error + bool :=
  match type_ field with
  | None => inl Js.TypeError
  | Some ty =>
      inr (existsb (fun type => Js.includes (Js.toLowerCase ty) type) numericTypes)
  end.

(** Lines 386-407.  The last statement names [fieldId], which is
    bound in [handleAddDimension] only: evaluating it raises a
    ReferenceError before [fieldTableMap.set] is entered, after
    [setMeasures] has queued the new list.  The result is the next
    state and the error the handler ends with, if any. *)
Definition handleAddMeasure (field : DatabaseField) (st : EditorState)
    : EditorState * option Js.Error :=
  match isNumericField field with
  | inl e => (st, Some e)
  | inr numeric =>
      if negb numeric then (st, None)
      else
        let exists_ :=
          existsb (fun m => bool_decide (fieldId m = name field)) (measures st) in
        if negb exists_ then
          let newMeasure :=
            mkMeasure (name field) (name field) "sum" (Some (name field +:+ "_sum")) in
          (setMeasures (measures st ++ [newMeasure]) st, Some Js.ReferenceError)
        else (st, None)
  end.

(** Lines 535-565. *)
Definition generateSqlQuery (st : EditorState) : string :=
  if ((length (dimensions st) =? 0) || (length (measures st) =? 0))%nat then ""
  else
    let '(tables, dimensionColumns) :=
      fold_left
        (fun '(tables, cols) dim =>
           let table := resolveTable (fieldTableMap st) (dim_fieldId dim) in
           (Js.setAdd table tables,
            cols ++ [table +:+ "." +:+ dim_fieldName dim]))
        (dimensions st) ([], []) in
    let '(tables, measureColumns) :=
      fold_left
        (fun '(tables, cols) measure =>
           let table := resolveTable (fieldTableMap st) (fieldId measure) in
           (Js.setAdd table tables,
            cols ++ [aggregation measure +:+ "(" +:+ table +:+ "."
                     +:+ fieldName measure +:+ ") as "
                     +:+ Js.interpolate (alias measure)]))
        (measures st) (tables, []) in
    let tablesList := tables in
    let selectClause := Js.join ", " (dimensionColumns ++ measureColumns) in
    let fromClause := Js.interpolate (head tablesList) in
    let groupByClause :=
      if (0 <? length dimensionColumns)%nat
      then "GROUP BY " +:+ Js.join ", " dimensionColumns else "" in
    "SELECT " +:+ selectClause +:+ " FROM " +:+ fromClause +:+ " "
      +:+ (if (1 <? length tablesList)%nat then joinMarker else "")
      +:+ " " +:+ groupByClause.

(** The [switch] of [handleSave] (lines 471-506); [None] is the early
    return of the metric case. *)
Definition handleSave_config (st : EditorState) : option TileConfig :=
  if bool_decide (tileType st = "chart") then
    Some (mkConfig (Some (chartType st)) None None
            (Some (dimensions st)) (Some (measures st)) None None None None
            (Some (generateSqlQuery st)) None)
  else if bool_decide (tileType st = "table") then
    Some (mkConfig None None None
            (Some (dimensions st)) (Some (measures st)) None None None None
            (Some (generateSqlQuery st)) None)
  else if bool_decide (tileType st = "metric") then
    if (length (measures st) =? 0)%nat then None
    else Some (mkConfig None None None None None None None None None
                 (Some (generateSqlQuery st)) (head (measures st)))
  else if bool_decide (tileType st = "text") then
    Some (mkConfig None None None None None (Some (textRows st))
            None None None None None)
  else Some emptyConfig.

(** Lines 463-533.  No gate in front, the UI kind goes out as the
    type, and [onClose] is never called. *)
Definition handleSave (tile : option Tile) (dashboardId : string)
    (net : CreateTileDto -> NetResult) (st : EditorState)
    : EditorState * list Effect :=
  let st := setSaving true (setError "" st) in
  match handleSave_config st with
  | None =>
      (setSaving false
         (setSaving false
            (setError "At least one measure is required for a metric tile" st)),
       [])
  | Some config =>
      let tileData :=
        mkDto (st_name st) (orUndefined (st_description st)) (tileType st)
          dashboardId (orUndefined (st_connectionId st)) config None in
      let call :=
        match tileIdOf tile with
        | Some id => UpdateTile id tileData
        | None => CreateTile tileData
        end in
      match net tileData with
      | Resolved => (setSaving false st, [call; OnSave])
      | RejectedError message =>
          (setSaving false (setError ("Failed to save tile: " +:+ message) st),
           [call])
      | RejectedOther =>
          (setSaving false (setError "Failed to save tile: Unknown error" st),
           [call])
      end
  end.

End Part000.

(** ** Vocabulary for stating the properties of the SQL synthesiser *)

(** The tables the selection resolves to, dimensions first, in
    selection order and with repetitions. *)
Definition resolvedTables (st : EditorState) : list string :=
  map (fun d => resolveTable (fieldTableMap st) (dim_fieldId d)) (dimensions st)
  ++ map (fun m => resolveTable (fieldTableMap st) (fieldId m)) (measures st).

(** How many distinct tables the selection resolves to. *)
Definition distinctTables (st : EditorState) : nat :=
  size (list_to_set (resolvedTables st) : gset string).

(** [table.fieldName] of a dimension. *)
Definition dimensionColumn (st : EditorState) (d : DimensionField) : string :=
  resolveTable (fieldTableMap st) (dim_fieldId d) +:+ "." +:+ dim_fieldName d.

(** [aggregation(table.fieldName) as alias], the alias as the copy at
    hand prints it. *)
Definition measureColumn (printAlias : MeasureField -> string)
    (st : EditorState) (m : MeasureField) : string :=
  aggregation m +:+ "(" +:+ resolveTable (fieldTableMap st) (fieldId m) +:+ "."
    +:+ fieldName m +:+ ") as " +:+ printAlias m.

Definition aliasOrName (m : MeasureField) : string := Js.orUndef (alias m) (fieldName m).
Definition aliasPrinted (m : MeasureField) : string := Js.interpolate (alias m).

(** Adding a run of elements to an insertion-ordered set. *)
Definition addAll (ts acc : list string) : list string :=
  fold_left (fun acc t => Js.setAdd t acc) ts acc.

(** A measure of the selection is a measure for the field [f] when it
    aggregates the column of [f]: it carries the name of [f] and
    resolves to the table of [f]. *)
Definition measureFor (st : EditorState) (f : DatabaseField) (m : MeasureField) : Prop :=
  fieldName m = name f /\ resolveTable (fieldTableMap st) (fieldId m) = table f.

(** ** Scenarios used as concrete inputs below *)

Module Scenario.

Definition amountField : DatabaseField := mkField "amount" (Some "int") "orders" None.
Definition amountOfRefunds : DatabaseField := mkField "amount" (Some "int") "refunds" None.
Definition amountAsText : DatabaseField := mkField "amount" (Some "varchar") "orders" None.
Definition regionField : DatabaseField := mkField "region" (Some "varchar") "orders" None.
Definition segmentField : DatabaseField := mkField "segment" (Some "varchar") "customers" None.
Definition ratioField : DatabaseField := mkField "ratio" (Some "REAL") "metrics" None.
Definition untypedField : DatabaseField := mkField "note" None "orders" None.

Definition regionDim : DimensionField := mkDimension "orders.region" "region" None.
Definition segmentDim : DimensionField := mkDimension "customers.segment" "segment" None.
Definition amountSum : MeasureField := mkMeasure "amount" "amount" "sum" (Some "amount_sum").

(** The selection of the spec's single-table scenario. *)
Definition singleTable : EditorState :=
  mkState "" "" "chart" "" "bar" [] false "" [regionDim] [amountSum] false ""
    (<["amount" := "orders"]> (<["orders.region" := "orders"]> ∅)).

(** Two dimensions from two tables and one measure. *)
Definition twoTables : EditorState :=
  mkState "" "" "chart" "" "bar" [] false "" [regionDim; segmentDim] [amountSum] false ""
    (<["amount" := "orders"]>
       (<["customers.segment" := "customers"]> (<["orders.region" := "orders"]> ∅))).

(** A titled metric tile on a connection, with nothing selected. *)
Definition metricNoMeasure : EditorState :=
  mkState "Revenue" "" "metric" "conn-1" "bar" [] false "" [] [] false "" ∅.

(** A complete table tile. *)
Definition tableTile : EditorState :=
  mkState "Sales by region" "" "table" "conn-1" "bar" [] false ""
    [regionDim] [amountSum] false ""
    (<["amount" := "orders"]> (<["orders.region" := "orders"]> ∅)).

(** A tile stored before the UI tags existed. *)
Definition legacyKpi : Tile :=
  mkTile (Some "tile-2") "Total revenue" "kpi" None (Some "conn-1")
    (Some (mkConfig None None None None None None None None None None (Some amountSum)))
    None None None None None.

Definition constantUuid (k : nat) : string := "00000000-0000-4000-8000-000000000000".

(** A complete chart tile over two tables. *)
Definition chartTile : EditorState :=
  mkState "Sales by region and segment" "" "chart" "conn-1" "bar" [] false ""
    [regionDim; segmentDim] [amountSum] false ""
    (<["amount" := "orders"]>
       (<["customers.segment" := "customers"]> (<["orders.region" := "orders"]> ∅))).

(** The same tile as the persistence layer stores it. *)
Definition storedChart : Tile :=
  mkTile (Some "tile-3") "Sales by region and segment" "chart" None (Some "conn-1")
    (Some (mkConfig (Some "bar") (Some "bar") (Some "chart")
             (Some [regionDim; segmentDim]) (Some [amountSum]) None
             (Some "conn-1") None None None None))
    None None None None None.

(** A text tile with one filled row and one empty row. *)
Definition textTile : EditorState :=
  mkState "Notes" "" "text" "" "bar"
    [mkTextRow "r1" "header" "Quarterly notes" false; mkTextRow "r2" "text" "" false]
    false "" [] [] false "" ∅.

End Scenario.

(** The UI kind stored in a tile's configuration, if any. *)
Definition uiTag (tile : Tile) : option string :=
  match tile_config tile with
  | Some c => match cfg_uiType c with
              | Some u => if Js.truthy u then Some u else None
              | None => None
              end
  | None => None
  end.

(** The spec's default mapping from backend type to UI kind. *)
Definition legacyKind (backendType : string) : string :=
  if bool_decide (backendType = "chart") then "chart"
  else if bool_decide (backendType = "text") then "text"
  else if bool_decide (backendType = "kpi") then "metric"
  else "chart".

(** The data of the persistence call a save attempt starts with. *)
Definition sentData (effects : list Effect) : option CreateTileDto :=
  match effects with
  | UpdateTile _ d :: _ => Some d
  | CreateTile d :: _ => Some d
  | _ => None
  end.

(** The tile the persistence layer hands back for the data it was
    sent under the identifier [id]. *)
Definition tileOfDto (id : string) (d : CreateTileDto) : Tile :=
  mkTile (Some id) (dto_title d) (dto_type d) (dto_description d)
    (dto_connectionId d) (Some (dto_config d)) None None None None (dto_position d).

(** ** Runs of selection events on the first copy *)

(** The user actions that edit the selection. *)
Inductive SelectionEvent : Type :=
| AddDimension (field : DatabaseField)
| RemoveDimension (index : Z)
| AddMeasure (field : DatabaseField)
| RemoveMeasure (index : Z)
| SetAggregation (index : Z) (aggregation' : string).

(** One event handled by the first copy. *)
Definition selectionStep (e : SelectionEvent) (st : EditorState)
    : Js.Error + EditorState :=
  match e with
  | AddDimension f => inr (TileEditor.handleAddDimension f st)
  | RemoveDimension i => inr (TileEditor.handleRemoveDimension i st)
  | AddMeasure f => inr (TileEditor.handleAddMeasure f st)
  | RemoveMeasure i => inr (TileEditor.handleRemoveMeasure i st)
  | SetAggregation i a => TileEditor.handleMeasureAggregationChange i a st
  end.

(** A run of events, stopped by the first handler that raises. *)
Fixpoint selectionRun (es : list SelectionEvent) (st : EditorState)
    : Js.Error + EditorState :=
  match es with
  | [] => inr st
  | e :: es' =>
      match selectionStep e st with
      | inl err => inl err
      | inr st' => selectionRun es' st'
      end
  end.

(** What every selection built through the handlers satisfies. *)
Record SelectionInvariant (st : EditorState) : Prop := mkSelectionInvariant {
  inv_dimension_ids : NoDup (dim_fieldId <$> dimensions st);
  inv_measure_ids : NoDup (fieldId <$> measures st);
  inv_dimension_tables :
    forall d, d ∈ dimensions st -> is_Some (fieldTableMap st !! dim_fieldId d);
  inv_measure_tables :
    forall m, m ∈ measures st -> is_Some (fieldTableMap st !! fieldId m);
  inv_measure_alias :
    forall m, m ∈ measures st ->
      fieldName m = fieldId m /\ alias m = Some (fieldId m +:+ "_sum")
}.

(** ** The init effect of the second copy, step by step

    The effect is one long sequence of conditional setters; the steps
    are named here so that each can be reasoned about on its own
    ([tileInitEffectB_steps] shows they compose to the effect). *)

Definition initB_kind (tile : Tile) (st : EditorState) : EditorState :=
  match uiTag tile with
  | Some u => setTileType u st
  | None => setTileType (legacyKind (tile_type tile)) st
  end.

Definition initB_connection (tile : Tile) (st : EditorState) : EditorState :=
  match orUndefined (Js.orUndef (tile_connectionId tile) "") with
  | Some c => setConnectionId c st
  | None =>
      match tile_config tile with
      | Some c =>
          match orUndefined (Js.orUndef (cfg_connectionId c) "") with
          | Some c' => setConnectionId c' st
          | None => st
          end
      | None => st
      end
  end.

Definition initB_chartType (config : TileConfig) (st : EditorState) : EditorState :=
  match orUndefined (Js.orUndef (cfg_uiChartType config) "") with
  | Some u => setChartType u st
  | None =>
      match orUndefined (Js.orUndef (cfg_chartType config) "") with
      | Some c => setChartType c st
      | None => st
      end
  end.

Definition initB_dimensions (config : TileConfig) (st : EditorState) : EditorState :=
  match cfg_dimensions config with
  | Some ds => setDimensions ds st
  | None => st
  end.

Definition initB_measures (config : TileConfig) (st : EditorState) : EditorState :=
  match cfg_measures config with
  | Some ms => setMeasures ms st
  | None =>
      match cfg_measure config with
      | Some m => setMeasures [m] st
      | None => st
      end
  end.

Definition initB_rows (uuidv4 : nat -> string) (config : TileConfig)
    (st : EditorState) : EditorState :=
  match cfg_textRows config with
  | Some rows => setTextRows (TileEditorB.fillIds uuidv4 0 rows) st
  | None => st
  end.

Definition initB_query (config : TileConfig) (st : EditorState) : EditorState :=
  match cfg_isQueryMode config with
  | Some true =>
      let st := setIsQueryMode true st in
      match orUndefined (Js.orUndef (cfg_customQuery config) "") with
      | Some q => setCustomQuery q st
      | None => st
      end
  | _ => st
  end.

(** * Properties *)

(** ** Strings and ordered sets *)

Section StringFacts.

Lemma append_cons (c : ascii) (s t : string) :
  String c s +:+ t = String c (s +:+ t).
Proof. reflexivity. Qed.

Lemma prefix_iff (n s : string) :
  String.prefix n s = true <-> exists post, s = n +:+ post.
Proof.
  revert s; induction n as [|c n IH]; intros s.
  - destruct s; simpl; (split; [intros _; by eexists | done]).
  - destruct s as [|c' s]; simpl.
    + split; [done | intros [post Hp]; by rewrite append_cons in Hp].
    + destruct (Ascii.ascii_dec c c') as [->|Hne].
      * rewrite IH. split; intros [post Hp]; exists post;
          rewrite append_cons in *; congruence.
      * split; [done | intros [post Hp]; rewrite append_cons in Hp; congruence].
Qed.

Lemma includes_nil (n : string) :
  Js.includes "" n = String.prefix n "" || false.
Proof. reflexivity. Qed.

Lemma includes_cons (c : ascii) (s n : string) :
  Js.includes (String c s) n = String.prefix n (String c s) || Js.includes s n.
Proof. reflexivity. Qed.

(** [includes] decides the substring relation. *)
Lemma includes_iff (s n : string) :
  Js.includes s n = true <-> exists pre post, s = pre +:+ n +:+ post.
Proof.
  induction s as [|c s IH];
    [rewrite includes_nil | rewrite includes_cons];
    rewrite orb_true_iff, prefix_iff.
  - split.
    + intros [[post Hp]|?]; [|done]. by exists "", post.
    + intros (pre & post & Hp). left.
      destruct pre; [by exists post | by rewrite append_cons in Hp].
  - rewrite IH. split.
    + intros [[post Hp]|(pre & post & Hp)].
      * by exists "", post.
      * exists (String c pre), post. by rewrite append_cons, Hp.
    + intros (pre & post & Hp). destruct pre as [|c' pre].
      * left. by exists post.
      * right. exists pre, post. rewrite append_cons in Hp. congruence.
Qed.

Lemma truthy_iff (s : string) : Js.truthy s = true <-> s <> "".
Proof. destruct s; simpl; split; congruence. Qed.

Lemma existsb_fieldId_false {A} (key : A -> string) (k : string) (l : list A) :
  existsb (fun x => bool_decide (key x = k)) l = false
  <-> forall x, x ∈ l -> key x <> k.
Proof.
  induction l as [|a l IH]; simpl.
  - split; [intros _ x Hx; inversion Hx | done].
  - rewrite orb_false_iff, IH, bool_decide_eq_false. split.
    + intros [Ha Hl] x Hx. apply elem_of_cons in Hx as [->|Hx]; auto.
    + intros H. split; [apply H; left | intros x Hx; apply H; by right].
Qed.

Lemma existsb_app_last {A} (p : A -> bool) (l : list A) (a : A) :
  p a = true -> existsb p (l ++ [a]) = true.
Proof.
  intros Ha. rewrite existsb_app. simpl. rewrite Ha. by rewrite orb_true_r.
Qed.

Lemma filter_none {A} (P : A -> Prop) `{!forall x, Decision (P x)} (l : list A) :
  (forall x, x ∈ l -> ~ P x) -> filter P l = [].
Proof.
  induction l as [|a l IH]; intros Hnone; [done|].
  rewrite filter_cons_False by (apply Hnone; left).
  apply IH. intros x Hx. apply Hnone. by right.
Qed.

Lemma existsb_fieldId_true {A} (key : A -> string) (k : string) (l : list A) :
  existsb (fun x => bool_decide (key x = k)) l = true
  <-> exists x, x ∈ l /\ key x = k.
Proof.
  rewrite existsb_exists. split.
  - intros (x & Hin & Hx). exists x.
    split; [by apply list_elem_of_In | by apply bool_decide_eq_true in Hx].
  - intros (x & Hin & Hx). exists x.
    split; [by apply list_elem_of_In | by apply bool_decide_eq_true].
Qed.

(** [trim] beyond ASCII: the no-break space is white space at either
    end, a zero-width space is not, and a letter whose encoding ends
    in the byte A0 is kept. *)
Lemma trim_white_space :
  Js.trim Js.NBSP = ""
  /\ Js.trim (" " +:+ Js.NBSP +:+ "a b" +:+ Js.NBSP +:+ Js.LF) = "a b"
  /\ Js.trim (String (ascii_of_N 195) (String (ascii_of_N 160) ""))
     = String (ascii_of_N 195) (String (ascii_of_N 160) "")
  /\ Js.trim (String (ascii_of_N 226) (String (ascii_of_N 128)
                 (String (ascii_of_N 139) "")))
     <> "".
Proof. repeat split; (reflexivity || discriminate). Qed.

End StringFacts.

(** ** The selection set of the first copy *)

Section Selection.

Import TileEditor.

Lemma setDimensions_id st : setDimensions (dimensions st) st = st.
Proof. by destruct st. Qed.

(** A measure that was just added is found by the duplicate check. *)
Lemma handleAddMeasure_again f st :
  handleAddMeasure f (handleAddMeasure f st) = handleAddMeasure f st.
Proof.
  unfold handleAddMeasure.
  destruct (isNumericField f) eqn:Hnum; simpl; [|done].
  destruct (existsb _ (measures st)) eqn:Hex; simpl.
  - by rewrite Hex.
  - rewrite existsb_app_last; [done|]. by apply bool_decide_eq_true.
Qed.

Lemma handleAddMeasure_fresh f st :
  isNumericField f = true ->
  (forall m, m ∈ measures st -> fieldId m <> name f) ->
  handleAddMeasure f st =
    fieldTableMap_set (name f) (table f)
      (setMeasures
         (measures st ++ [mkMeasure (name f) (name f) "sum" (Some (name f +:+ "_sum"))])
         st).
Proof.
  intros Hnum Hfresh. unfold handleAddMeasure. rewrite Hnum. simpl.
  apply existsb_fieldId_false in Hfresh. by rewrite Hfresh.
Qed.


Lemma handleAddDimension_fresh f st :
  (forall d, d ∈ dimensions st -> dim_fieldId d <> table f +:+ "." +:+ name f) ->
  handleAddDimension f st =
    fieldTableMap_set (table f +:+ "." +:+ name f) (table f)
      (setDimensions
         (dimensions st ++ [mkDimension (table f +:+ "." +:+ name f) (name f) None])
         st).
Proof.
  intros Hfresh. unfold handleAddDimension.
  apply existsb_fieldId_false in Hfresh. by rewrite Hfresh.
Qed.

Lemma splice_one_delete {A} (l : list A) (i : nat) :
  (i < length l)%nat ->
  take i l ++ drop (i + 1) l = delete i l.
Proof.
  intros _. rewrite Nat.add_1_r. symmetry. apply delete_take_drop.
Qed.

End Selection.

(** ** The SQL synthesiser *)

Section Sql.

Lemma addAll_app ts us acc : addAll (ts ++ us) acc = addAll us (addAll ts acc).
Proof. unfold addAll. by rewrite fold_left_app. Qed.

Lemma addAll_cons t ts acc : addAll (t :: ts) acc = addAll ts (Js.setAdd t acc).
Proof. reflexivity. Qed.

(** What is in the set stays where it is. *)
Lemma addAll_prefix ts acc : exists added, addAll ts acc = acc ++ added.
Proof.
  revert acc; induction ts as [|t ts IH]; intros acc.
  - exists []. by rewrite app_nil_r.
  - rewrite addAll_cons. destruct (IH (Js.setAdd t acc)) as [added Ha].
    rewrite Ha. unfold Js.setAdd. destruct (decide (t ∈ acc)).
    + by exists added.
    + exists (t :: added). by rewrite <- app_assoc.
Qed.

Lemma addAll_head t ts : head (addAll (t :: ts) []) = Some t.
Proof.
  rewrite addAll_cons. destruct (addAll_prefix ts (Js.setAdd t [])) as [added Ha].
  rewrite Ha. unfold Js.setAdd.
  by destruct (decide (t ∈ [])) as [Hin|_]; [inversion Hin|].
Qed.

Lemma addAll_elem_of x ts acc : x ∈ addAll ts acc <-> x ∈ acc \/ x ∈ ts.
Proof.
  revert acc; induction ts as [|t ts IH]; intros acc.
  - split; [by left | intros [?|Hx]; [done | inversion Hx]].
  - rewrite addAll_cons, IH. unfold Js.setAdd.
    destruct (decide (t ∈ acc)) as [Hin|Hout].
    + rewrite elem_of_cons. split; [tauto|].
      intros [?|[->|?]]; tauto.
    + rewrite elem_of_app, list_elem_of_singleton, elem_of_cons. tauto.
Qed.

Lemma addAll_NoDup ts acc : NoDup acc -> NoDup (addAll ts acc).
Proof.
  revert acc; induction ts as [|t ts IH]; intros acc Hnd; [done|].
  rewrite addAll_cons. apply IH. unfold Js.setAdd.
  destruct (decide (t ∈ acc)); [done|].
  apply NoDup_app. split; [done|]. split.
  - intros x Hx Hx'. apply list_elem_of_singleton in Hx' as ->. done.
  - apply NoDup_singleton.
Qed.

(** The ordered set built by the generator has one entry per
    distinct table. *)
Lemma addAll_length ts :
  length (addAll ts []) = size (list_to_set ts : gset string).
Proof.
  rewrite <- (size_list_to_set (C := gset string) (addAll ts []))
    by (apply addAll_NoDup; constructor).
  f_equal. apply set_eq. intros x.
  rewrite !elem_of_list_to_set, addAll_elem_of.
  split; [intros [Hx|Hx]; [inversion Hx | done] | by right].
Qed.

Lemma fold_dimensions (m : gmap string string) dims tabs cols :
  fold_left
    (fun '(tables, cols) dim =>
       let table := resolveTable m (dim_fieldId dim) in
       (Js.setAdd table tables, cols ++ [table +:+ "." +:+ dim_fieldName dim]))
    dims (tabs, cols)
  = (addAll (map (fun d => resolveTable m (dim_fieldId d)) dims) tabs,
     cols ++ map (fun d => resolveTable m (dim_fieldId d) +:+ "." +:+ dim_fieldName d)
               dims).
Proof.
  revert tabs cols; induction dims as [|d dims IH]; intros tabs cols; simpl.
  - by rewrite app_nil_r.
  - rewrite IH. by rewrite <- app_assoc.
Qed.

Lemma fold_measures (printAlias : MeasureField -> string)
    (m : gmap string string) ms tabs cols :
  fold_left
    (fun '(tables, cols) measure =>
       let table := resolveTable m (fieldId measure) in
       (Js.setAdd table tables,
        cols ++ [aggregation measure +:+ "(" +:+ table +:+ "."
                 +:+ fieldName measure +:+ ") as " +:+ printAlias measure]))
    ms (tabs, cols)
  = (addAll (map (fun x => resolveTable m (fieldId x)) ms) tabs,
     cols ++ map (fun x => aggregation x +:+ "(" +:+ resolveTable m (fieldId x) +:+ "."
                           +:+ fieldName x +:+ ") as " +:+ printAlias x) ms).
Proof.
  revert tabs cols; induction ms as [|x ms IH]; intros tabs cols; simpl.
  - by rewrite app_nil_r.
  - rewrite IH. by rewrite <- app_assoc.
Qed.

Lemma length_zero_iff {A} (l : list A) : (length l =? 0)%nat = true <-> l = [].
Proof. destruct l; simpl; split; congruence. Qed.

(** The first copy's output for a complete selection. *)
Lemma generateSqlQuery_complete st :
  dimensions st <> [] -> measures st <> [] ->
  TileEditor.generateSqlQuery st
  = "SELECT "
      +:+ Js.join ", " (map (dimensionColumn st) (dimensions st)
                        ++ map (measureColumn aliasOrName st) (measures st))
      +:+ " " +:+ Js.LF +:+ "FROM "
      +:+ Js.interpolate (head (addAll (resolvedTables st) []))
      +:+ " " +:+ Js.LF +:+ "GROUP BY "
      +:+ Js.join ", " (map (dimensionColumn st) (dimensions st)).
Proof.
  intros Hd Hm. unfold TileEditor.generateSqlQuery.
  destruct (length (dimensions st) =? 0)%nat eqn:Ed;
    [by apply length_zero_iff in Ed|].
  destruct (length (measures st) =? 0)%nat eqn:Em;
    [by apply length_zero_iff in Em|].
  cbv beta iota zeta delta [orb].
  rewrite fold_dimensions. cbv beta iota zeta.
  rewrite (fold_measures aliasOrName). cbv beta iota zeta.
  rewrite !app_nil_l, length_map, <- addAll_app.
  replace (0 <? length (dimensions st))%nat with true
    by (destruct (dimensions st); [done | reflexivity]).
  reflexivity.
Qed.

(** The single-line copies' output for a complete selection. *)
Lemma generateSqlQueryB_complete st :
  dimensions st <> [] -> measures st <> [] ->
  TileEditorB.generateSqlQuery st
  = "SELECT "
      +:+ Js.join ", " (map (dimensionColumn st) (dimensions st)
                        ++ map (measureColumn aliasPrinted st) (measures st))
      +:+ " FROM "
      +:+ Js.interpolate (head (addAll (resolvedTables st) []))
      +:+ " "
      +:+ (if (1 <? length (addAll (resolvedTables st) []))%nat
           then joinMarker else "")
      +:+ " " +:+ "GROUP BY "
      +:+ Js.join ", " (map (dimensionColumn st) (dimensions st)).
Proof.
  intros Hd Hm. unfold TileEditorB.generateSqlQuery.
  destruct (length (dimensions st) =? 0)%nat eqn:Ed;
    [by apply length_zero_iff in Ed|].
  destruct (length (measures st) =? 0)%nat eqn:Em;
    [by apply length_zero_iff in Em|].
  cbv beta iota zeta delta [orb].
  rewrite fold_dimensions. cbv beta iota zeta.
  rewrite (fold_measures aliasPrinted). cbv beta iota zeta.
  rewrite !app_nil_l, length_map, <- addAll_app.
  replace (0 <? length (dimensions st))%nat with true
    by (destruct (dimensions st); [done | reflexivity]).
  reflexivity.
Qed.

Lemma generateSqlQuery_part000 st :
  Part000.generateSqlQuery st = TileEditorB.generateSqlQuery st.
Proof. reflexivity. Qed.

End Sql.

(** ** Claims on the selection set *)

(** C5 as stated fails: measures are told apart by the bare column
    name.  With orders.amount selected, the numeric field
    refunds.amount has no measure (the one measure aggregates the
    column of orders), yet adding it changes nothing. *)
Lemma handleAddMeasure_other_table_rejected :
  TileEditor.isNumericField Scenario.amountOfRefunds = true
  /\ (forall m,
        m ∈ measures (TileEditor.handleAddMeasure Scenario.amountField initialState) ->
        ~ measureFor (TileEditor.handleAddMeasure Scenario.amountField initialState)
            Scenario.amountOfRefunds m)
  /\ TileEditor.handleAddMeasure Scenario.amountOfRefunds
       (TileEditor.handleAddMeasure Scenario.amountField initialState)
     = TileEditor.handleAddMeasure Scenario.amountField initialState
  /\ measures (TileEditor.handleAddMeasure Scenario.amountOfRefunds
                 (TileEditor.handleAddMeasure Scenario.amountField initialState))
     = [Scenario.amountSum].
Proof.
  split; [reflexivity|]. split; [|split; reflexivity].
  intros m Hm [_ Htable].
  apply list_elem_of_singleton in Hm as ->. discriminate Htable.
Qed.

(** C5, amended.  [addMeasure] on the first copy: a field that is not
    numeric leaves the state as it is; a numeric field with no measure
    under its name appends exactly one measure with aggregation sum
    and alias name_sum and records name -> table; adding the same
    field again changes nothing, and neither does adding a field whose
    name a measure already carries, whatever its table. *)
Theorem handleAddMeasure_spec (f : DatabaseField) (st : EditorState) :
  (TileEditor.isNumericField f = false -> TileEditor.handleAddMeasure f st = st)
  /\ (TileEditor.isNumericField f = true ->
      (forall m, m ∈ measures st -> fieldId m <> name f) ->
      measures (TileEditor.handleAddMeasure f st)
        = measures st ++ [mkMeasure (name f) (name f) "sum" (Some (name f +:+ "_sum"))]
      /\ fieldTableMap (TileEditor.handleAddMeasure f st)
          = <[name f := table f]> (fieldTableMap st)
      /\ dimensions (TileEditor.handleAddMeasure f st) = dimensions st)
  /\ TileEditor.handleAddMeasure f (TileEditor.handleAddMeasure f st)
      = TileEditor.handleAddMeasure f st
  /\ ((exists m, m ∈ measures st /\ fieldId m = name f) ->
      TileEditor.handleAddMeasure f st = st).
Proof.
  split; [|split; [|split]].
  - intros Hnum. unfold TileEditor.handleAddMeasure. by rewrite Hnum.
  - intros Hnum Hfresh. by rewrite handleAddMeasure_fresh.
  - apply handleAddMeasure_again.
  - intros Hex. apply existsb_fieldId_true in Hex.
    unfold TileEditor.handleAddMeasure. rewrite Hex.
    by destruct (TileEditor.isNumericField f).
Qed.

Lemma handleAddMeasure_spec_witness :
  TileEditor.handleAddMeasure Scenario.regionField initialState = initialState
  /\ measures (TileEditor.handleAddMeasure Scenario.amountField initialState)
      = [Scenario.amountSum]
  /\ fieldTableMap (TileEditor.handleAddMeasure Scenario.amountField initialState)
      = <["amount" := "orders"]> ∅.
Proof.
  destruct (handleAddMeasure_spec Scenario.regionField initialState) as (Hno & _ & _).
  destruct (handleAddMeasure_spec Scenario.amountField initialState) as (_ & Hadd & _).
  split; [apply Hno; reflexivity|].
  destruct Hadd as (Hm & Ht & _);
    [reflexivity | intros m Hm; inversion Hm | ].
  split; [exact Hm | exact Ht].
Defined.



(** C9 as stated fails: [splice] counts a negative start from the end
    of the array, so index -1 removes the last dimension. *)
Lemma handleRemoveDimension_negative_index :
  ~ (0 <= -1 < Z.of_nat (length (dimensions Scenario.twoTables)))
  /\ dimensions (TileEditor.handleRemoveDimension (-1) Scenario.twoTables)
     = [Scenario.regionDim]
  /\ dimensions (TileEditor.handleRemoveDimension (-1) Scenario.twoTables)
     <> dimensions Scenario.twoTables.
Proof.
  split; [simpl; lia|]. split; [reflexivity | discriminate].
Qed.

(** C9, amended.  [removeDimension] on a list of length n: an index at
    or beyond n leaves the state as it is; an index in [0, n) removes
    exactly the element at that position; a negative index is counted
    from the end by [splice] and removes the element at position
    max(n + index, 0).  Nothing but the dimension list is touched. *)
Theorem handleRemoveDimension_spec (index : Z) (st : EditorState) :
  (Z.of_nat (length (dimensions st)) <= index ->
     TileEditor.handleRemoveDimension index st = st)
  /\ (0 <= index < Z.of_nat (length (dimensions st)) ->
     dimensions (TileEditor.handleRemoveDimension index st)
       = delete (Z.to_nat index) (dimensions st))
  /\ (index < 0 ->
     dimensions (TileEditor.handleRemoveDimension index st)
       = delete (Z.to_nat (Z.max (Z.of_nat (length (dimensions st)) + index) 0))
           (dimensions st))
  /\ measures (TileEditor.handleRemoveDimension index st) = measures st
  /\ fieldTableMap (TileEditor.handleRemoveDimension index st) = fieldTableMap st.
Proof.
  unfold TileEditor.handleRemoveDimension, Js.splice.
  set (l := dimensions st). set (n := Z.of_nat (length l)).
  split; [|split; [|split; [|done]]].
  - intros Hge. destruct (Z.ltb_spec index 0) as [Hneg|_]; [lia|].
    rewrite Z.min_r by lia.
    replace (Z.min (Z.max 1 0) (n - n)) with 0 by lia.
    subst n. rewrite Z.add_0_r, Nat2Z.id, firstn_all, drop_all, app_nil_r.
    apply setDimensions_id.
  - intros [Hlo Hhi]. destruct (Z.ltb_spec index 0) as [Hneg|_]; [lia|].
    rewrite Z.min_l by lia.
    replace (Z.min (Z.max 1 0) (n - index)) with 1 by lia.
    rewrite Z2Nat.inj_add by lia. simpl dimensions.
    apply splice_one_delete. subst n. lia.
  - intros Hneg. destruct (Z.ltb_spec index 0) as [_|Hge]; [|lia].
    simpl dimensions.
    destruct (decide (n = 0)) as [Hz|Hnz].
    + assert (l = []) as -> by (destruct l; [done | subst n; simpl in Hz; lia]).
      by rewrite take_nil, drop_nil.
    + replace (Z.min (Z.max 1 0) (n - Z.max (n + index) 0)) with 1 by lia.
      rewrite Z2Nat.inj_add by lia.
      apply splice_one_delete. subst n. lia.
Qed.

Lemma handleRemoveDimension_spec_witness :
  TileEditor.handleRemoveDimension 2 Scenario.twoTables = Scenario.twoTables
  /\ dimensions (TileEditor.handleRemoveDimension 0 Scenario.twoTables)
     = [Scenario.segmentDim]
  /\ dimensions (TileEditor.handleRemoveDimension (-5) Scenario.twoTables)
     = [Scenario.segmentDim].
Proof.
  split; [|split].
  - apply (handleRemoveDimension_spec 2 Scenario.twoTables). simpl. lia.
  - apply (proj1 (proj2 (handleRemoveDimension_spec 0 Scenario.twoTables))).
    simpl. lia.
  - apply (proj1 (proj2 (proj2 (handleRemoveDimension_spec (-5) Scenario.twoTables)))).
    lia.
Defined.

(** C10 as stated fails when the first field is not numeric: the first
    call is rejected, the second one is accepted, and the map entry is
    the second field's table. *)
Lemma handleAddMeasure_same_name_first_rejected :
  name Scenario.amountAsText = name Scenario.amountOfRefunds
  /\ table Scenario.amountAsText <> table Scenario.amountOfRefunds
  /\ TileEditor.handleAddMeasure Scenario.amountOfRefunds
       (TileEditor.handleAddMeasure Scenario.amountAsText initialState)
     <> TileEditor.handleAddMeasure Scenario.amountAsText initialState
  /\ fieldTableMap
       (TileEditor.handleAddMeasure Scenario.amountOfRefunds
          (TileEditor.handleAddMeasure Scenario.amountAsText initialState))
       !! "amount" = Some "refunds".
Proof.
  split; [reflexivity|]. split; [discriminate|]. split; [discriminate|].
  reflexivity.
Qed.

(** C10, amended.  On the first copy, for two fields of one name from
    different tables, the first of them numeric, and a selection with
    no measure under that name yet: adding the first and then the
    second leaves exactly one measure under the name, the second call
    changes nothing, and the map entry of the name is the first field's
    table. *)
Theorem handleAddMeasure_same_name (f1 f2 : DatabaseField) (st : EditorState) :
  name f1 = name f2 ->
  table f1 <> table f2 ->
  TileEditor.isNumericField f1 = true ->
  (forall m, m ∈ measures st -> fieldId m <> name f1) ->
  TileEditor.handleAddMeasure f2 (TileEditor.handleAddMeasure f1 st)
    = TileEditor.handleAddMeasure f1 st
  /\ measures (TileEditor.handleAddMeasure f2 (TileEditor.handleAddMeasure f1 st))
     = measures st ++ [mkMeasure (name f1) (name f1) "sum" (Some (name f1 +:+ "_sum"))]
  /\ length (filter (fun m => fieldId m = name f1)
               (measures (TileEditor.handleAddMeasure f2
                            (TileEditor.handleAddMeasure f1 st)))) = 1%nat
  /\ fieldTableMap (TileEditor.handleAddMeasure f2 (TileEditor.handleAddMeasure f1 st))
       !! name f1 = Some (table f1).
Proof.
  intros Hname Htable Hnum Hfresh.
  assert (TileEditor.handleAddMeasure f2 (TileEditor.handleAddMeasure f1 st)
          = TileEditor.handleAddMeasure f1 st) as ->.
  { rewrite (handleAddMeasure_fresh f1) by done.
    unfold TileEditor.handleAddMeasure at 1.
    destruct (TileEditor.isNumericField f2); simpl; [|done].
    rewrite existsb_app_last; [done|]. by apply bool_decide_eq_true. }
  rewrite handleAddMeasure_fresh by done. simpl.
  split; [done|]. split; [done|]. split.
  - rewrite filter_app, length_app.
    rewrite (filter_none _ (measures st)) by done.
    by rewrite filter_cons_True.
  - apply lookup_insert_eq.
Qed.

Lemma handleAddMeasure_same_name_witness :
  measures (TileEditor.handleAddMeasure Scenario.amountOfRefunds
              (TileEditor.handleAddMeasure Scenario.amountField initialState))
    = [Scenario.amountSum]
  /\ fieldTableMap
       (TileEditor.handleAddMeasure Scenario.amountOfRefunds
          (TileEditor.handleAddMeasure Scenario.amountField initialState))
       !! "amount" = Some "orders".
Proof.
  destruct (handleAddMeasure_same_name Scenario.amountField Scenario.amountOfRefunds
              initialState) as (_ & Hm & _ & Ht).
  - reflexivity.
  - discriminate.
  - reflexivity.
  - intros m Hm; inversion Hm.
  - split; [exact Hm | exact Ht].
Defined.

(** ** Claims on the SQL synthesiser *)

Lemma append_assoc (s t u : string) : (s +:+ t) +:+ u = s +:+ t +:+ u.
Proof. induction s as [|c s IH]; [done|]. by rewrite !append_cons, IH. Qed.

Lemma includes_app_l (n t : string) : Js.includes (n +:+ t) n = true.
Proof. apply includes_iff. by exists "", t. Qed.

Lemma includes_app_r (s t n : string) :
  Js.includes t n = true -> Js.includes (s +:+ t) n = true.
Proof.
  rewrite !includes_iff. intros (pre & post & ->).
  exists (s +:+ pre), post. by rewrite append_assoc.
Qed.

(** C1 as stated fails: neither cited copy returns the string of the
    scenario.  The first copy breaks the line before FROM and before
    GROUP BY; part_000 leaves the empty marker slot between two spaces. *)
Lemma generateSqlQuery_single_table_not_as_stated :
  TileEditor.generateSqlQuery Scenario.singleTable
    <> "SELECT orders.region, sum(orders.amount) as amount_sum FROM orders GROUP BY orders.region"
  /\ Part000.generateSqlQuery Scenario.singleTable
    <> "SELECT orders.region, sum(orders.amount) as amount_sum FROM orders GROUP BY orders.region".
Proof. split; vm_compute; discriminate. Qed.

(** C1, amended.  For the scenario's selection the first copy returns
    the three lines SELECT .. / FROM orders / GROUP BY .., each of the
    first two ended by a space and a line feed; part_000 returns one
    line with two spaces between the FROM table and GROUP BY.  Neither
    output holds a JOIN comment. *)
Theorem generateSqlQuery_single_table :
  TileEditor.generateSqlQuery Scenario.singleTable
    = "SELECT orders.region, sum(orders.amount) as amount_sum " +:+ Js.LF
      +:+ "FROM orders " +:+ Js.LF +:+ "GROUP BY orders.region"
  /\ Part000.generateSqlQuery Scenario.singleTable
    = "SELECT orders.region, sum(orders.amount) as amount_sum FROM orders  GROUP BY orders.region"
  /\ Js.includes (TileEditor.generateSqlQuery Scenario.singleTable) "JOIN" = false
  /\ Js.includes (Part000.generateSqlQuery Scenario.singleTable) "JOIN" = false.
Proof. repeat split; vm_compute; reflexivity. Qed.

(** C2.  The generator of the first copy returns the empty string when
    no dimension or no measure is selected.  When both lists are
    non-empty it returns a SELECT statement, which is not empty: the
    select list holds one column per dimension, table.name, followed
    by one column per measure, aggregation(table.name) as alias; the
    FROM clause names the table of the first dimension; and the
    GROUP BY clause lists the dimension columns again. *)
Theorem generateSqlQuery_empty_or_select (st : EditorState) :
  (dimensions st = [] \/ measures st = [] -> TileEditor.generateSqlQuery st = "")
  /\ (forall d ds,
        dimensions st = d :: ds -> measures st <> [] ->
        TileEditor.generateSqlQuery st <> ""
        /\ TileEditor.generateSqlQuery st
           = "SELECT "
               +:+ Js.join ", "
                     (map (fun x => resolveTable (fieldTableMap st) (dim_fieldId x)
                                    +:+ "." +:+ dim_fieldName x)
                        (dimensions st)
                      ++ map (fun m => aggregation m +:+ "("
                                       +:+ resolveTable (fieldTableMap st) (fieldId m)
                                       +:+ "." +:+ fieldName m +:+ ") as "
                                       +:+ Js.orUndef (alias m) (fieldName m))
                           (measures st))
               +:+ " " +:+ Js.LF +:+ "FROM "
               +:+ resolveTable (fieldTableMap st) (dim_fieldId d)
               +:+ " " +:+ Js.LF +:+ "GROUP BY "
               +:+ Js.join ", "
                     (map (fun x => resolveTable (fieldTableMap st) (dim_fieldId x)
                                    +:+ "." +:+ dim_fieldName x)
                        (dimensions st))).
Proof.
  split.
  - intros Hempty. unfold TileEditor.generateSqlQuery.
    destruct Hempty as [-> | ->]; [done|]. simpl. by rewrite orb_true_r.
  - intros d ds Hd Hm. rewrite generateSqlQuery_complete by (by rewrite ?Hd).
    split; [discriminate|].
    unfold resolvedTables at 1. rewrite Hd at 2. simpl map. rewrite <- app_comm_cons.
    by rewrite addAll_head.
Qed.

Lemma generateSqlQuery_empty_or_select_witness :
  TileEditor.generateSqlQuery Scenario.metricNoMeasure = ""
  /\ TileEditor.generateSqlQuery Scenario.singleTable
     = "SELECT orders.region, sum(orders.amount) as amount_sum "
       +:+ Js.LF +:+ "FROM orders " +:+ Js.LF +:+ "GROUP BY orders.region".
Proof.
  split.
  - apply (proj1 (generateSqlQuery_empty_or_select Scenario.metricNoMeasure)). by left.
  - destruct (proj2 (generateSqlQuery_empty_or_select Scenario.singleTable)
                Scenario.regionDim [] eq_refl) as [_ Hq]; [discriminate|].
    rewrite Hq. reflexivity.
Defined.

(** X2 (C2 on the single-line copies).  The generator of the second
    copy returns the empty string for an incomplete selection and a
    string that starts with SELECT otherwise. *)
Theorem generateSqlQueryB_empty_or_select (st : EditorState) :
  (dimensions st = [] \/ measures st = [] -> TileEditorB.generateSqlQuery st = "")
  /\ (dimensions st <> [] -> measures st <> [] ->
      TileEditorB.generateSqlQuery st <> ""
      /\ exists rest, TileEditorB.generateSqlQuery st = "SELECT " +:+ rest).
Proof.
  split.
  - intros Hempty. unfold TileEditorB.generateSqlQuery.
    destruct Hempty as [-> | ->]; [done|]. simpl. by rewrite orb_true_r.
  - intros Hd Hm. rewrite generateSqlQueryB_complete by done.
    split; [discriminate | by eexists].
Qed.

Lemma generateSqlQueryB_empty_or_select_witness :
  TileEditorB.generateSqlQuery Scenario.metricNoMeasure = ""
  /\ TileEditorB.generateSqlQuery Scenario.singleTable <> "".
Proof.
  split.
  - apply (generateSqlQueryB_empty_or_select Scenario.metricNoMeasure). by left.
  - apply (generateSqlQueryB_empty_or_select Scenario.singleTable); discriminate.
Defined.

(** C3 on the first copy.  With two dimensions from two tables the
    selection resolves to two distinct tables, yet the output of the
    first copy names orders after FROM and carries no marker; the
    second copy marks the same selection. *)
Theorem generateSqlQuery_two_tables_unmarked :
  distinctTables Scenario.twoTables = 2%nat
  /\ TileEditor.generateSqlQuery Scenario.twoTables
     = "SELECT orders.region, customers.segment, sum(orders.amount) as amount_sum "
       +:+ Js.LF +:+ "FROM orders " +:+ Js.LF
       +:+ "GROUP BY orders.region, customers.segment"
  /\ Js.includes (TileEditor.generateSqlQuery Scenario.twoTables) joinMarker = false
  /\ Js.includes (TileEditorB.generateSqlQuery Scenario.twoTables) joinMarker = true.
Proof. repeat split; vm_compute; reflexivity. Qed.

(** X9 (C3 on the first copy, the part that holds).  For a complete
    selection the first copy puts the table of the first dimension,
    and nothing else, between FROM and the line break that precedes
    GROUP BY, however many tables the selection resolves to. *)
Theorem generateSqlQuery_from_first_table (st : EditorState)
    (d : DimensionField) (ds : list DimensionField) :
  dimensions st = d :: ds ->
  measures st <> [] ->
  TileEditor.generateSqlQuery st
  = "SELECT "
      +:+ Js.join ", " (map (dimensionColumn st) (dimensions st)
                        ++ map (measureColumn aliasOrName st) (measures st))
      +:+ " " +:+ Js.LF +:+ "FROM "
      +:+ resolveTable (fieldTableMap st) (dim_fieldId d)
      +:+ " " +:+ Js.LF +:+ "GROUP BY "
      +:+ Js.join ", " (map (dimensionColumn st) (dimensions st)).
Proof.
  intros Hd Hm. rewrite generateSqlQuery_complete by (by rewrite ?Hd).
  unfold resolvedTables at 1. rewrite Hd at 2. simpl map. rewrite <- app_comm_cons.
  by rewrite addAll_head.
Qed.

Lemma generateSqlQuery_from_first_table_witness :
  TileEditor.generateSqlQuery Scenario.twoTables
  = "SELECT orders.region, customers.segment, sum(orders.amount) as amount_sum "
    +:+ Js.LF +:+ "FROM orders " +:+ Js.LF
    +:+ "GROUP BY orders.region, customers.segment".
Proof.
  rewrite (generateSqlQuery_from_first_table Scenario.twoTables
             Scenario.regionDim [Scenario.segmentDim]);
    [reflexivity | reflexivity | discriminate].
Defined.

(** X3 (C3 on the second copy and part_000).  For a
    complete selection the FROM clause names the table of the first
    dimension and nothing else; the slot after it holds the JOIN
    marker when the selection resolves to more than one distinct table
    and is empty otherwise. *)
Theorem generateSqlQueryB_join_marker (st : EditorState)
    (d : DimensionField) (ds : list DimensionField) :
  dimensions st = d :: ds ->
  measures st <> [] ->
  TileEditorB.generateSqlQuery st
  = "SELECT "
      +:+ Js.join ", " (map (dimensionColumn st) (dimensions st)
                        ++ map (measureColumn aliasPrinted st) (measures st))
      +:+ " FROM " +:+ resolveTable (fieldTableMap st) (dim_fieldId d) +:+ " "
      +:+ (if (1 <? distinctTables st)%nat then joinMarker else "")
      +:+ " " +:+ "GROUP BY "
      +:+ Js.join ", " (map (dimensionColumn st) (dimensions st))
  /\ ((1 < distinctTables st)%nat ->
      Js.includes (TileEditorB.generateSqlQuery st) joinMarker = true)
  /\ Part000.generateSqlQuery st = TileEditorB.generateSqlQuery st.
Proof.
  intros Hd Hm.
  assert (TileEditorB.generateSqlQuery st
          = "SELECT "
              +:+ Js.join ", " (map (dimensionColumn st) (dimensions st)
                                ++ map (measureColumn aliasPrinted st) (measures st))
              +:+ " FROM " +:+ resolveTable (fieldTableMap st) (dim_fieldId d) +:+ " "
              +:+ (if (1 <? distinctTables st)%nat then joinMarker else "")
              +:+ " " +:+ "GROUP BY "
              +:+ Js.join ", " (map (dimensionColumn st) (dimensions st))) as Heq.
  { rewrite generateSqlQueryB_complete by (by rewrite ?Hd).
    rewrite addAll_length. fold (distinctTables st).
    unfold resolvedTables at 1. rewrite Hd at 2. simpl map. rewrite <- app_comm_cons.
    by rewrite addAll_head. }
  split; [exact Heq|]. split; [|reflexivity].
  intros Hmany. rewrite Heq.
  apply Nat.ltb_lt in Hmany. rewrite Hmany.
  do 5 apply includes_app_r. apply includes_app_l.
Qed.

Lemma generateSqlQueryB_join_marker_witness :
  Js.includes (TileEditorB.generateSqlQuery Scenario.twoTables) joinMarker = true.
Proof.
  apply (generateSqlQueryB_join_marker Scenario.twoTables
           Scenario.regionDim [Scenario.segmentDim]).
  - reflexivity.
  - discriminate.
  - vm_compute. lia.
Defined.

(** ** Claims on the field classifier *)

(** X1 (C7 on the first copy).  The classifier decides the allow-list of the
    spec: a field is numeric exactly when its type is present and its
    lower-cased form contains one of the ten names.  BIGINT is numeric,
    VARCHAR is not, and an empty or absent type yields false. *)
Theorem isNumericField_iff (f : DatabaseField) :
  (TileEditor.isNumericField f = true
   <-> exists ty needle,
         type_ f = Some ty
         /\ needle ∈ ["int"; "integer"; "number"; "float"; "double"; "decimal";
                      "numeric"; "bigint"; "smallint"; "real"]
         /\ exists pre post, Js.toLowerCase ty = pre +:+ needle +:+ post)
  /\ TileEditor.isNumericField (mkField "id" (Some "BIGINT") "orders" None) = true
  /\ TileEditor.isNumericField (mkField "city" (Some "VARCHAR") "orders" None) = false
  /\ TileEditor.isNumericField (mkField "note" (Some "") "orders" None) = false
  /\ TileEditor.isNumericField (mkField "note" None "orders" None) = false.
Proof.
  split; [|repeat split; vm_compute; reflexivity].
  unfold TileEditor.isNumericField.
  destruct (type_ f) as [ty|]; [|split; [done | by intros (? & ? & ? & _)]].
  assert (existsb (fun type => Js.includes (Js.toLowerCase ty) type)
            TileEditor.numericTypes = true
          <-> exists ty' needle, Some ty = Some ty'
                /\ needle ∈ TileEditor.numericTypes
                /\ exists pre post, Js.toLowerCase ty' = pre +:+ needle +:+ post) as Hex.
  { rewrite existsb_exists. split.
    - intros (needle & Hin & Hinc). exists ty, needle.
      split; [done|]. split; [by apply list_elem_of_In|]. by apply includes_iff.
    - intros (ty' & needle & [= <-] & Hin & Hsub). exists needle.
      split; [by apply list_elem_of_In|]. by apply includes_iff. }
  destruct ty as [|c ty]; [|exact Hex].
  simpl negb. cbv iota. rewrite <- Hex. by vm_compute.
Qed.

(** C7 on part_000 (and on the second copy, which has the same body).
    Its list stops at seven names: REAL is not classified as numeric,
    and a field without a type raises instead of yielding false.  The
    first copy answers true and false there. *)
Theorem isNumericField_part000_diverges :
  Part000.isNumericField Scenario.ratioField = inr false
  /\ TileEditorB.isNumericField Scenario.ratioField = inr false
  /\ TileEditor.isNumericField Scenario.ratioField = true
  /\ Part000.isNumericField Scenario.untypedField = inl Js.TypeError
  /\ TileEditor.isNumericField Scenario.untypedField = false.
Proof. repeat split; vm_compute; reflexivity. Qed.

(** ** Claims on the validation gate and on saving *)

Ltac kind_cases :=
  repeat (case_bool_decide; try congruence; simpl).

(** X4 (C8 on the first copy, the part that holds).  A metric tile
    without measures never gets past
    the gate: the attempt ends with the gate's one message, no
    persistence call and no callback is made, and nothing of the
    editor state changes but [error] and [saving]. *)
Theorem handleSave_metric_blocked (tile : option Tile) (dashboardId : string)
    (net : CreateTileDto -> NetResult) (st : EditorState) :
  tileType st = "metric" ->
  measures st = [] ->
  TileEditor.handleSave tile dashboardId net st
  = (setSaving false (setError "Invalid tile configuration" st), []).
Proof.
  intros Hkind Hnone. unfold TileEditor.handleSave.
  assert (TileEditor.isValid st = false) as ->; [|done].
  unfold TileEditor.isValid. rewrite Hkind, Hnone.
  destruct (negb _); [done|]. kind_cases. by rewrite andb_false_r.
Qed.

Lemma handleSave_metric_blocked_witness :
  TileEditor.handleSave None "dash-1" (fun _ => Resolved) Scenario.metricNoMeasure
  = (setSaving false (setError "Invalid tile configuration" Scenario.metricNoMeasure), []).
Proof.
  apply (handleSave_metric_blocked None "dash-1" (fun _ => Resolved)
           Scenario.metricNoMeasure); reflexivity.
Defined.

(** C8 as stated fails on the first copy: for a titled metric tile on
    a connection with no measure the save attempt is blocked without
    any call, but the reason it leaves is the one message of the guard
    in front of [handleSave], not a measure-required one.  (The second
    copy, whose gate sets its own messages, leaves the measure message
    for the same state.) *)
Theorem handleSave_metric_reason :
  TileEditor.handleSave None "dash-1" (fun _ => Resolved) Scenario.metricNoMeasure
  = (setSaving false (setError "Invalid tile configuration" Scenario.metricNoMeasure), [])
  /\ error (fst (TileEditor.handleSave None "dash-1" (fun _ => Resolved)
                   Scenario.metricNoMeasure))
     <> "At least one measure is required for a metric tile"
  /\ TileEditorB.handleSave None "dash-1" (fun _ => Resolved) Scenario.metricNoMeasure
     = (setSaving false
          (setError "At least one measure is required for a metric tile"
             Scenario.metricNoMeasure), []).
Proof. split; [reflexivity|]. split; [discriminate | reflexivity]. Qed.

(** The gate of the first copy rejects a metric tile without measures. *)
Lemma isValid_metric_no_measure (st : EditorState) :
  tileType st = "metric" -> measures st = [] -> TileEditor.isValid st = false.
Proof.
  intros Hkind Hnone. unfold TileEditor.isValid. rewrite Hkind, Hnone.
  destruct (negb _); [done|]. kind_cases. by rewrite andb_false_r.
Qed.

(** C8, amended.  On the first copy a metric tile without measures
    fails the gate, and a save attempt in that state leaves the guard's
    reason, Invalid tile configuration, makes no persistence call,
    calls neither onSave nor onClose, and keeps name, kind,
    connection, selections, rows and table map as they were. *)
Theorem handleSave_metric_gate (tile : option Tile) (dashboardId : string)
    (net : CreateTileDto -> NetResult) (st : EditorState) :
  tileType st = "metric" ->
  measures st = [] ->
  TileEditor.isValid st = false
  /\ snd (TileEditor.handleSave tile dashboardId net st) = []
  /\ error (fst (TileEditor.handleSave tile dashboardId net st))
     = "Invalid tile configuration"
  /\ saving (fst (TileEditor.handleSave tile dashboardId net st)) = false
  /\ setSaving (saving st)
       (setError (error st) (fst (TileEditor.handleSave tile dashboardId net st)))
     = st.
Proof.
  intros Hkind Hnone.
  pose proof (isValid_metric_no_measure st Hkind Hnone) as Hgate.
  unfold TileEditor.handleSave. rewrite Hgate. simpl.
  repeat split. by destruct st.
Qed.

Lemma handleSave_metric_gate_witness :
  snd (TileEditor.handleSave (Some Scenario.legacyKpi) "dash-1" (fun _ => Resolved)
         Scenario.metricNoMeasure) = []
  /\ error (fst (TileEditor.handleSave (Some Scenario.legacyKpi) "dash-1"
                   (fun _ => Resolved) Scenario.metricNoMeasure))
     = "Invalid tile configuration".
Proof.
  destruct (handleSave_metric_gate (Some Scenario.legacyKpi) "dash-1"
              (fun _ => Resolved) Scenario.metricNoMeasure eq_refl eq_refl)
    as (_ & Hcall & Herr & _).
  split; [exact Hcall | exact Herr].
Defined.

(** The gates of both copies see a title of no-break spaces as blank. *)
Lemma isValid_blank_title (st : EditorState) :
  TileEditor.isValid (setName (Js.NBSP +:+ " " +:+ Js.NBSP) st) = false
  /\ TileEditorB.isValid (setName (Js.NBSP +:+ " " +:+ Js.NBSP) st)
     = (false, setError "Title is required"
                 (setName (Js.NBSP +:+ " " +:+ Js.NBSP) st)).
Proof. split; reflexivity. Qed.

(** X5 (C8 on the second copy).  The gate names the missing measure, provided
    the title is not blank (a blank title is reported first). *)
Theorem handleSaveB_metric_blocked (tile : option Tile) (dashboardId : string)
    (net : CreateTileDto -> NetResult) (st : EditorState) :
  tileType st = "metric" ->
  measures st = [] ->
  Js.trim (st_name st) <> "" ->
  TileEditorB.handleSave tile dashboardId net st
  = (setSaving false
       (setError "At least one measure is required for a metric tile" st), []).
Proof.
  intros Hkind Hnone Htitle. unfold TileEditorB.handleSave, TileEditorB.isValid.
  apply truthy_iff in Htitle. rewrite Htitle, Hkind, Hnone. simpl negb.
  cbv iota. kind_cases. reflexivity.
Qed.

Lemma handleSaveB_metric_blocked_witness :
  TileEditorB.handleSave None "dash-1" (fun _ => Resolved) Scenario.metricNoMeasure
  = (setSaving false
       (setError "At least one measure is required for a metric tile"
          Scenario.metricNoMeasure), []).
Proof.
  apply (handleSaveB_metric_blocked None "dash-1" (fun _ => Resolved)
           Scenario.metricNoMeasure); [reflexivity | reflexivity | discriminate].
Defined.

(** ** Claims on the round trip of the tile kind *)

(** C4 on the first copy.  Saving a table tile sends backend type
    chart with the tags uiType = uiChartType = table; opening the
    stored tile again, the first copy shows kind chart, and a legacy
    kpi tile is shown under the backend name kpi.  The second copy
    restores table and metric for the same two tiles. *)
Theorem tileInitEffect_ignores_ui_tags :
  exists dto,
    snd (TileEditor.handleSave None "dash-1" (fun _ => Resolved) Scenario.tableTile)
      = [CreateTile dto; OnSave; OnClose]
    /\ dto_type dto = "chart"
    /\ cfg_uiType (dto_config dto) = Some "table"
    /\ cfg_uiChartType (dto_config dto) = Some "table"
    /\ tileType (TileEditor.tileInitEffect (Some (tileOfDto "tile-1" dto)) true initialState)
       = "chart"
    /\ tileType (TileEditor.tileInitEffect (Some Scenario.legacyKpi) true initialState)
       = "kpi"
    /\ tileType (TileEditorB.tileInitEffect Scenario.constantUuid
                   (Some (tileOfDto "tile-1" dto)) true initialState) = "table"
    /\ tileType (TileEditorB.tileInitEffect Scenario.constantUuid
                   (Some Scenario.legacyKpi) true initialState) = "metric".
Proof. eexists. repeat split; vm_compute; reflexivity. Qed.

Section RoundTripB.

Variable uuidv4 : nat -> string.

(** The kind the second copy's init effect settles on. *)
Lemma tileInitEffectB_tileType (tile : Tile) (st : EditorState) :
  tileType (TileEditorB.tileInitEffect uuidv4 (Some tile) true st)
  = match uiTag tile with
    | Some u => u
    | None => legacyKind (tile_type tile)
    end.
Proof.
  unfold TileEditorB.tileInitEffect, uiTag, legacyKind. simpl negb. cbv iota.
  destruct (tile_config tile) as [c|].
  - assert (forall s1 : EditorState,
      tileType
        (let s2 := match orUndefined (Js.orUndef (cfg_uiChartType c) "") with
                   | Some u => setChartType u s1
                   | None =>
                       match orUndefined (Js.orUndef (cfg_chartType c) "") with
                       | Some c' => setChartType c' s1
                       | None => s1
                       end
                   end in
         let s3 := match cfg_dimensions c with
                   | Some ds => setDimensions ds s2
                   | None => s2
                   end in
         let s4 := match cfg_measures c with
                   | Some ms => setMeasures ms s3
                   | None => match cfg_measure c with
                             | Some m => setMeasures [m] s3
                             | None => s3
                             end
                   end in
         let s5 := match cfg_textRows c with
                   | Some rows => setTextRows (TileEditorB.fillIds uuidv4 0 rows) s4
                   | None => s4
                   end in
         match cfg_isQueryMode c with
         | Some true =>
             let s6 := setIsQueryMode true s5 in
             match orUndefined (Js.orUndef (cfg_customQuery c) "") with
             | Some q => setCustomQuery q s6
             | None => s6
             end
         | _ => s5
         end) = tileType s1) as Hrest.
    { intros s1. cbv zeta.
      repeat match goal with
             | |- context [match ?x with _ => _ end] => destruct x
             end; reflexivity. }
    rewrite Hrest.
    destruct (orUndefined (Js.orUndef (tile_connectionId tile) ""));
      [|destruct (orUndefined (Js.orUndef (cfg_connectionId c) ""))];
      (destruct (cfg_uiType c) as [u|]; [destruct (Js.truthy u)|];
       simpl; repeat case_bool_decide; reflexivity).
  - destruct (orUndefined (Js.orUndef (tile_connectionId tile) ""));
      simpl; repeat case_bool_decide; reflexivity.
Qed.

(** What a save of a table tile sends on the second copy. *)
Lemma handleSaveB_table_data (prev : option Tile) (dashboardId : string)
    (net : CreateTileDto -> NetResult) (st : EditorState) (dto : CreateTileDto) :
  tileType st = "table" ->
  sentData (snd (TileEditorB.handleSave prev dashboardId net st)) = Some dto ->
  dto_type dto = "chart"
  /\ cfg_uiType (dto_config dto) = Some "table"
  /\ cfg_uiChartType (dto_config dto) = Some "table".
Proof.
  intros Hkind. unfold TileEditorB.handleSave, TileEditorB.isValid.
  unfold TileEditorB.handleSave_config, TileEditorB.handleSave_backendType.
  rewrite Hkind.
  destruct (negb (Js.truthy (Js.trim (st_name st)))); [done|].
  kind_cases.
  destruct (negb (Js.truthy (st_connectionId st))); [done|].
  simpl. rewrite Hkind. kind_cases.
  destruct (Js.truthy (st_connectionId st)), (tileIdOf prev), (net _);
    simpl; intros [= <-]; done.
Qed.

End RoundTripB.

(** X6 (C4 on the second copy).  A tile saved as a table goes out with
    backend type chart and comes back as a table. *)
Theorem tileInitEffectB_round_trip (uuidv4 : nat -> string)
    (prev : option Tile) (dashboardId id : string)
    (net : CreateTileDto -> NetResult) (st st0 : EditorState) (dto : CreateTileDto) :
  tileType st = "table" ->
  sentData (snd (TileEditorB.handleSave prev dashboardId net st)) = Some dto ->
  dto_type dto = "chart"
  /\ tileType (TileEditorB.tileInitEffect uuidv4 (Some (tileOfDto id dto)) true st0)
     = "table".
Proof.
  intros Hkind Hsent.
  destruct (handleSaveB_table_data prev dashboardId net st dto Hkind Hsent)
    as (Htype & Hui & _).
  split; [done|]. rewrite tileInitEffectB_tileType.
  unfold uiTag, tileOfDto. simpl. by rewrite Hui.
Qed.

Lemma tileInitEffectB_round_trip_witness :
  tileType (TileEditorB.tileInitEffect Scenario.constantUuid
              (Some (tileOfDto "tile-1"
                       (mkDto "Sales by region" None "chart" "dash-1" (Some "conn-1")
                          (mkConfig (Some "bar") (Some "table") (Some "table")
                             (Some [Scenario.regionDim]) (Some [Scenario.amountSum])
                             None (Some "conn-1") None None
                             (Some (TileEditorB.generateSqlQuery Scenario.tableTile))
                             None)
                          None)))
              true initialState) = "table".
Proof.
  apply (tileInitEffectB_round_trip Scenario.constantUuid None "dash-1" "tile-1"
           (fun _ => Resolved) Scenario.tableTile initialState); reflexivity.
Defined.

(** X7 (C4 on the second copy, legacy tiles).  A tile without a UI
    tag is opened under the default mapping chart->chart, text->text,
    kpi->metric. *)
Theorem tileInitEffectB_legacy (uuidv4 : nat -> string) (tile : Tile)
    (st : EditorState) :
  uiTag tile = None ->
  tileType (TileEditorB.tileInitEffect uuidv4 (Some tile) true st)
  = legacyKind (tile_type tile)
  /\ legacyKind "chart" = "chart"
  /\ legacyKind "text" = "text"
  /\ legacyKind "kpi" = "metric".
Proof.
  intros Hnone. rewrite tileInitEffectB_tileType, Hnone. by repeat split.
Qed.

Lemma tileInitEffectB_legacy_witness :
  tileType (TileEditorB.tileInitEffect Scenario.constantUuid
              (Some Scenario.legacyKpi) true initialState) = "metric".
Proof.
  apply (tileInitEffectB_legacy Scenario.constantUuid Scenario.legacyKpi initialState).
  reflexivity.
Defined.

(** ** The measure handler of part_000 *)

(** X8.  In part_000 [addMeasure] never writes the table map.  A field
    without a type raises a TypeError and a field that is not numeric,
    or whose name a measure already carries, is passed over, the state
    staying as it was.  Every numeric field whose name no measure
    carries yet has its measure queued, with aggregation sum and alias
    name_sum, and the handler then ends in a ReferenceError where the
    first copy records name -> table. *)
Theorem handleAddMeasure_part000_map_untouched (f : DatabaseField) (st : EditorState) :
  fieldTableMap (fst (Part000.handleAddMeasure f st)) = fieldTableMap st
  /\ (type_ f = None -> Part000.handleAddMeasure f st = (st, Some Js.TypeError))
  /\ (Part000.isNumericField f = inr false ->
      Part000.handleAddMeasure f st = (st, None))
  /\ (Part000.isNumericField f = inr true ->
      (exists m, m ∈ measures st /\ fieldId m = name f) ->
      Part000.handleAddMeasure f st = (st, None))
  /\ (Part000.isNumericField f = inr true ->
      (forall m, m ∈ measures st -> fieldId m <> name f) ->
      Part000.handleAddMeasure f st
      = (setMeasures
           (measures st
              ++ [mkMeasure (name f) (name f) "sum" (Some (name f +:+ "_sum"))])
           st,
         Some Js.ReferenceError)).
Proof.
  unfold Part000.handleAddMeasure.
  split; [|split; [|split; [|split]]].
  - destruct (Part000.isNumericField f) as [e|[|]]; simpl; [done| |done].
    by destruct (existsb _ _).
  - intros Hty. unfold Part000.isNumericField. by rewrite Hty.
  - by intros ->.
  - intros -> Hex. apply existsb_fieldId_true in Hex. simpl. by rewrite Hex.
  - intros -> Hfresh. apply existsb_fieldId_false in Hfresh. simpl. by rewrite Hfresh.
Qed.

Lemma handleAddMeasure_part000_map_untouched_witness :
  Part000.handleAddMeasure Scenario.amountOfRefunds
    (setMeasures [mkMeasure "ratio" "ratio" "avg" (Some "ratio_sum")] initialState)
  = (setMeasures
       [mkMeasure "ratio" "ratio" "avg" (Some "ratio_sum"); Scenario.amountSum]
       initialState,
     Some Js.ReferenceError)
  /\ Part000.handleAddMeasure Scenario.untypedField initialState
     = (initialState, Some Js.TypeError).
Proof.
  split.
  - apply (proj2 (proj2 (proj2 (proj2
             (handleAddMeasure_part000_map_untouched Scenario.amountOfRefunds
                (setMeasures [mkMeasure "ratio" "ratio" "avg" (Some "ratio_sum")]
                   initialState)))))).
    + reflexivity.
    + intros m Hm. apply list_elem_of_singleton in Hm as ->. discriminate.
  - apply (proj1 (proj2
             (handleAddMeasure_part000_map_untouched Scenario.untypedField
                initialState))).
    reflexivity.
Defined.

(** ** Invariants of the selection *)

Section SelectionInvariants.

(** What [splice(index, 1)] leaves of a list. *)
Lemma splice_one {A} (l : list A) (index : Z) :
  Js.splice l index 1
  = if Z.of_nat (length l) <=? index then l
    else delete (Z.to_nat (if index <? 0
                           then Z.max (Z.of_nat (length l) + index) 0
                           else index)) l.
Proof.
  unfold Js.splice. set (n := Z.of_nat (length l)).
  destruct (Z.leb_spec n index) as [Hge|Hlt].
  - destruct (Z.ltb_spec index 0) as [Hneg|_]; [lia|].
    rewrite Z.min_r by lia.
    replace (Z.min (Z.max 1 0) (n - n)) with 0 by lia.
    subst n. by rewrite Z.add_0_r, Nat2Z.id, firstn_all, drop_all, app_nil_r.
  - destruct (Z.ltb_spec index 0) as [Hneg|Hpos].
    + destruct (decide (n = 0)) as [Hz|Hnz].
      * assert (l = []) as -> by (destruct l; [done | subst n; simpl in Hz; lia]).
        by rewrite take_nil, drop_nil.
      * replace (Z.min (Z.max 1 0) (n - Z.max (n + index) 0)) with 1 by lia.
        rewrite Z2Nat.inj_add by lia. apply splice_one_delete. subst n. lia.
    + rewrite Z.min_l by lia.
      replace (Z.min (Z.max 1 0) (n - index)) with 1 by lia.
      rewrite Z2Nat.inj_add by lia. apply splice_one_delete. subst n. lia.
Qed.

Lemma splice_one_sublist {A} (l : list A) (index : Z) :
  Js.splice l index 1 `sublist_of` l.
Proof.
  rewrite splice_one. destruct (_ <=? _); [done | apply sublist_delete].
Qed.

Lemma sublist_elem_of' {A} (l k : list A) (x : A) :
  l `sublist_of` k -> x ∈ l -> x ∈ k.
Proof. intros Hs Hx. by apply (sublist_subseteq _ _ Hs). Qed.

Lemma invariant_add_dimension f st :
  SelectionInvariant st -> SelectionInvariant (TileEditor.handleAddDimension f st).
Proof.
  intros [Hd Hm Hdt Hmt Hal]. unfold TileEditor.handleAddDimension.
  destruct (existsb _ (dimensions st)) eqn:Hex; simpl; [by split|].
  pose proof (proj1 (existsb_fieldId_false dim_fieldId _ _) Hex) as Hfresh.
  split; simpl; try done.
  - rewrite fmap_app. apply NoDup_app. split; [done|]. split; [|apply NoDup_singleton].
    intros x Hx Hx'. apply list_elem_of_singleton in Hx' as ->.
    apply list_elem_of_fmap in Hx as (d & Hid & Hd'). by apply (Hfresh d).
  - intros d Hd'. apply lookup_insert_is_Some'.
    apply elem_of_app in Hd' as [Hd'|Hd']; [right; by apply Hdt|].
    apply list_elem_of_singleton in Hd' as ->. by left.
  - intros m Hm'. apply lookup_insert_is_Some'. right. by apply Hmt.
Qed.

Lemma invariant_add_measure f st :
  SelectionInvariant st -> SelectionInvariant (TileEditor.handleAddMeasure f st).
Proof.
  intros [Hd Hm Hdt Hmt Hal]. unfold TileEditor.handleAddMeasure.
  destruct (negb _); [by split|].
  destruct (existsb _ (measures st)) eqn:Hex; simpl; [by split|].
  pose proof (proj1 (existsb_fieldId_false fieldId _ _) Hex) as Hfresh.
  split; simpl; try done.
  - rewrite fmap_app. apply NoDup_app. split; [done|]. split; [|apply NoDup_singleton].
    intros x Hx Hx'. apply list_elem_of_singleton in Hx' as ->.
    apply list_elem_of_fmap in Hx as (m & Hid & Hm'). by apply (Hfresh m).
  - intros d Hd'. apply lookup_insert_is_Some'. right. by apply Hdt.
  - intros m Hm'. apply lookup_insert_is_Some'.
    apply elem_of_app in Hm' as [Hm'|Hm']; [right; by apply Hmt|].
    apply list_elem_of_singleton in Hm' as ->. by left.
  - intros m Hm'. apply elem_of_app in Hm' as [Hm'|Hm']; [by apply Hal|].
    by apply list_elem_of_singleton in Hm' as ->.
Qed.

Lemma invariant_remove_dimension i st :
  SelectionInvariant st -> SelectionInvariant (TileEditor.handleRemoveDimension i st).
Proof.
  intros [Hd Hm Hdt Hmt Hal]. unfold TileEditor.handleRemoveDimension.
  pose proof (splice_one_sublist (dimensions st) i) as Hsub.
  split; simpl; try done.
  - eapply sublist_NoDup; [exact Hd | by apply fmap_sublist].
  - intros d Hd'. apply Hdt. by eapply sublist_elem_of'.
Qed.

Lemma invariant_remove_measure i st :
  SelectionInvariant st -> SelectionInvariant (TileEditor.handleRemoveMeasure i st).
Proof.
  intros [Hd Hm Hdt Hmt Hal]. unfold TileEditor.handleRemoveMeasure.
  pose proof (splice_one_sublist (measures st) i) as Hsub.
  split; simpl; try done.
  - eapply sublist_NoDup; [exact Hm | by apply fmap_sublist].
  - intros m Hm'. apply Hmt. by eapply sublist_elem_of'.
  - intros m Hm'. apply Hal. by eapply sublist_elem_of'.
Qed.

Lemma elem_of_insert_inv {A} (l : list A) (i : nat) (x y : A) :
  x ∈ <[i:=y]> l -> x = y \/ x ∈ l.
Proof.
  revert i; induction l as [|a l IH]; intros i Hx; [by right|].
  destruct i as [|i]; simpl in Hx; apply elem_of_cons in Hx as [->|Hx].
  - by left.
  - right. by right.
  - right. by left.
  - destruct (IH i Hx) as [->|Hin]; [by left | right; by right].
Qed.

Lemma invariant_set_aggregation i a st st' :
  SelectionInvariant st ->
  TileEditor.handleMeasureAggregationChange i a st = inr st' ->
  SelectionInvariant st'.
Proof.
  intros [Hd Hm Hdt Hmt Hal]. unfold TileEditor.handleMeasureAggregationChange.
  destruct (i <? 0); [done|].
  destruct (measures st !! Z.to_nat i) as [m|] eqn:Hi; [|done].
  intros [= <-].
  assert (fieldId <$> <[Z.to_nat i := mkMeasure (fieldId m) (fieldName m) a (alias m)]>
                        (measures st) = fieldId <$> measures st) as Hids.
  { rewrite list_fmap_insert. apply list_insert_id. by rewrite list_lookup_fmap, Hi. }
  pose proof (list_elem_of_lookup_2 _ _ _ Hi) as Hin.
  split; simpl; try done.
  - by rewrite Hids.
  - intros m' Hm'. apply elem_of_insert_inv in Hm' as [->|Hm']; [exact (Hmt m Hin) | by apply Hmt].
  - intros m' Hm'. apply elem_of_insert_inv in Hm' as [->|Hm']; [exact (Hal m Hin) | by apply Hal].
Qed.

End SelectionInvariants.

(** X10.  Whatever sequence of add, remove and aggregation events the
    first copy handles from a freshly mounted editor, the selection it
    ends with has no two dimensions and no two measures under one
    identifier, every selected identifier has an entry in the table
    map, and every measure still carries its bare name as identifier
    and the alias name_sum. *)
Theorem selectionRun_invariant (es : list SelectionEvent) (st st' : EditorState) :
  SelectionInvariant st ->
  selectionRun es st = inr st' ->
  SelectionInvariant st'.
Proof.
  revert st; induction es as [|e es IH]; intros st Hinv; simpl.
  - by intros [= <-].
  - destruct (selectionStep e st) as [err|st1] eqn:Hstep; [done|].
    apply IH. destruct e; simpl in Hstep.
    + injection Hstep as <-. by apply invariant_add_dimension.
    + injection Hstep as <-. by apply invariant_remove_dimension.
    + injection Hstep as <-. by apply invariant_add_measure.
    + injection Hstep as <-. by apply invariant_remove_measure.
    + by eapply invariant_set_aggregation.
Qed.

Lemma initialState_invariant : SelectionInvariant initialState.
Proof.
  split; simpl; [apply NoDup_nil_2 | apply NoDup_nil_2 | ..];
    intros ? Hin; inversion Hin.
Defined.

Lemma selectionRun_invariant_witness :
  SelectionInvariant
    (setMeasures [mkMeasure "amount" "amount" "avg" (Some "amount_sum")]
       (setDimensions [Scenario.segmentDim]
          (fieldTableMap_set "amount" "orders"
             (fieldTableMap_set "customers.segment" "customers"
                (fieldTableMap_set "orders.region" "orders" initialState))))).
Proof.
  apply (selectionRun_invariant
           [AddDimension Scenario.regionField; AddDimension Scenario.segmentField;
            AddMeasure Scenario.amountField; AddMeasure Scenario.amountOfRefunds;
            SetAggregation 0 "avg"; RemoveDimension 0]
           initialState).
  - exact initialState_invariant.
  - reflexivity.
Defined.

(** ** The preview after the first picks *)

Section Preview.

Lemma resolveTable_insert_eq (m : gmap string string) (k v : string) :
  v <> "" -> resolveTable (<[k := v]> m) k = v.
Proof.
  intros Hv. unfold resolveTable. rewrite lookup_insert_eq. simpl.
  unfold Js.orElse. by apply truthy_iff in Hv as ->.
Qed.

Lemma resolveTable_insert_ne (m : gmap string string) (k k' v : string) :
  k <> k' -> resolveTable (<[k := v]> m) k' = resolveTable m k'.
Proof. intros Hne. unfold resolveTable. by rewrite lookup_insert_ne. Qed.

(** A key the map lacks, or holds with an empty table, falls back. *)
Lemma resolveTable_fallback (m : gmap string string) (k : string) :
  resolveTable m k = "unknown_table"
  <-> m !! k = None \/ m !! k = Some "" \/ m !! k = Some "unknown_table".
Proof.
  unfold resolveTable. destruct (m !! k) as [v|]; simpl.
  - unfold Js.orElse. destruct v as [|c v]; simpl.
    + split; [intros _; right; by left | done].
    + split.
      * intros Heq. right. right. by rewrite Heq.
      * intros [Hn|[He|Hu]]; congruence.
  - split; [by left | done].
Qed.

Lemma truthy_append_sum (s : string) : Js.truthy (s +:+ "_sum") = true.
Proof. by destruct s. Qed.

Lemma aggregation_change_in_range (i : Z) (a : string) (st : EditorState)
    (m : MeasureField) :
  0 <= i -> measures st !! Z.to_nat i = Some m ->
  TileEditor.handleMeasureAggregationChange i a st
  = inr (setMeasures
           (<[Z.to_nat i := mkMeasure (fieldId m) (fieldName m) a (alias m)]>
              (measures st)) st).
Proof.
  intros Hi Hm. unfold TileEditor.handleMeasureAggregationChange.
  destruct (Z.ltb_spec i 0); [lia|]. by rewrite Hm.
Qed.

End Preview.

(** X11.  On the first copy, picking a first dimension f and then a
    first measure g gives the preview SELECT tf.nf, sum(tg.ng) as
    ng_sum / FROM tf / GROUP BY tf.nf, provided both table names are
    non-empty and g is not named like the identifier of f; changing
    the aggregation afterwards replaces sum in the column and leaves
    the alias ng_sum as it was. *)
Theorem preview_after_first_picks (f g : DatabaseField) (a : string)
    (st st' : EditorState) :
  dimensions st = [] ->
  measures st = [] ->
  TileEditor.isNumericField g = true ->
  table f <> "" ->
  table g <> "" ->
  name g <> table f +:+ "." +:+ name f ->
  TileEditor.handleMeasureAggregationChange 0 a
    (TileEditor.handleAddMeasure g (TileEditor.handleAddDimension f st)) = inr st' ->
  TileEditor.generateSqlQuery
    (TileEditor.handleAddMeasure g (TileEditor.handleAddDimension f st))
  = "SELECT "
      +:+ Js.join ", " [table f +:+ "." +:+ name f;
                        "sum(" +:+ table g +:+ "." +:+ name g +:+ ") as "
                          +:+ name g +:+ "_sum"]
      +:+ " " +:+ Js.LF +:+ "FROM " +:+ table f
      +:+ " " +:+ Js.LF +:+ "GROUP BY " +:+ Js.join ", " [table f +:+ "." +:+ name f]
  /\ TileEditor.generateSqlQuery st'
  = "SELECT "
      +:+ Js.join ", " [table f +:+ "." +:+ name f;
                        a +:+ "(" +:+ table g +:+ "." +:+ name g +:+ ") as "
                          +:+ name g +:+ "_sum"]
      +:+ " " +:+ Js.LF +:+ "FROM " +:+ table f
      +:+ " " +:+ Js.LF +:+ "GROUP BY " +:+ Js.join ", " [table f +:+ "." +:+ name f].
Proof.
  intros Hd Hm Hnum Htf Htg Hne.
  rewrite (handleAddDimension_fresh f st) by (rewrite Hd; intros d Hin; inversion Hin).
  rewrite handleAddMeasure_fresh;
    [|done|simpl; rewrite Hm; intros m Hin; inversion Hin].
  rewrite (aggregation_change_in_range 0 a _
             (mkMeasure (name g) (name g) "sum" (Some (name g +:+ "_sum"))))
    by (simpl; first [lia | by rewrite Hm]).
  intros [= <-].
  split.
  - rewrite generateSqlQuery_complete by (simpl; rewrite ?Hd, ?Hm; done).
    unfold resolvedTables, dimensionColumn, measureColumn, aliasOrName. simpl.
    rewrite Hd, Hm. simpl.
    rewrite resolveTable_insert_eq by done.
    rewrite resolveTable_insert_ne by done.
    rewrite resolveTable_insert_eq by done.
    change (Js.setAdd (table g) (Js.setAdd (table f) []))
      with (addAll [table f; table g] []).
    rewrite addAll_head. unfold Js.orElse. by rewrite truthy_append_sum.
  - rewrite generateSqlQuery_complete by (simpl; rewrite ?Hd, ?Hm; done).
    unfold resolvedTables, dimensionColumn, measureColumn, aliasOrName. simpl.
    rewrite Hd, Hm. simpl.
    rewrite resolveTable_insert_eq by done.
    rewrite resolveTable_insert_ne by done.
    rewrite resolveTable_insert_eq by done.
    change (Js.setAdd (table g) (Js.setAdd (table f) []))
      with (addAll [table f; table g] []).
    rewrite addAll_head. unfold Js.orElse. by rewrite truthy_append_sum.
Qed.

Lemma preview_after_first_picks_witness :
  TileEditor.generateSqlQuery
    (setMeasures [mkMeasure "amount" "amount" "avg" (Some "amount_sum")]
       (TileEditor.handleAddMeasure Scenario.amountField
          (TileEditor.handleAddDimension Scenario.regionField initialState)))
  = "SELECT orders.region, avg(orders.amount) as amount_sum " +:+ Js.LF
    +:+ "FROM orders " +:+ Js.LF +:+ "GROUP BY orders.region".
Proof.
  apply (preview_after_first_picks Scenario.regionField Scenario.amountField "avg"
           initialState); try reflexivity; discriminate.
Defined.

(** ** Positional edits of the measure list *)

(** X12.  Changing the aggregation of a measure on the first copy: an
    index outside [0, n) raises a TypeError; an index inside replaces
    the aggregation of that entry and nothing else: the list keeps its
    length, every entry keeps identifier, name and alias, the other
    entries keep their aggregation, and dimensions and table map are
    untouched. *)
Theorem handleMeasureAggregationChange_spec (i : Z) (a : string) (st : EditorState) :
  (~ (0 <= i < Z.of_nat (length (measures st))) ->
     TileEditor.handleMeasureAggregationChange i a st = inl Js.TypeError)
  /\ (0 <= i < Z.of_nat (length (measures st)) ->
      exists st',
        TileEditor.handleMeasureAggregationChange i a st = inr st'
        /\ length (measures st') = length (measures st)
        /\ fieldId <$> measures st' = fieldId <$> measures st
        /\ fieldName <$> measures st' = fieldName <$> measures st
        /\ alias <$> measures st' = alias <$> measures st
        /\ aggregation <$> measures st'
           = <[Z.to_nat i := a]> (aggregation <$> measures st)
        /\ dimensions st' = dimensions st
        /\ fieldTableMap st' = fieldTableMap st).
Proof.
  split.
  - intros Hout. unfold TileEditor.handleMeasureAggregationChange.
    destruct (Z.ltb_spec i 0) as [|Hpos]; [done|].
    destruct (measures st !! Z.to_nat i) as [m|] eqn:Hm; [|done].
    apply lookup_lt_Some in Hm. lia.
  - intros [Hlo Hhi].
    destruct (lookup_lt_is_Some_2 (measures st) (Z.to_nat i)) as [m Hm]; [lia|].
    eexists. split; [by apply aggregation_change_in_range|]. simpl.
    rewrite length_insert, !list_fmap_insert. simpl.
    repeat split; try done; apply list_insert_id; by rewrite list_lookup_fmap, Hm.
Qed.

Lemma handleMeasureAggregationChange_spec_witness :
  TileEditor.handleMeasureAggregationChange 1 "max"
    (TileEditor.handleAddMeasure Scenario.amountField initialState)
  = inl Js.TypeError.
Proof.
  apply (handleMeasureAggregationChange_spec 1 "max"
           (TileEditor.handleAddMeasure Scenario.amountField initialState)).
  simpl. lia.
Defined.

(** X13.  Removing a measure on the first copy follows [splice]: an
    index at or beyond the end changes nothing, an index in [0, n)
    removes exactly that entry, a negative index removes the entry at
    max(n + index, 0) counted from the front; dimensions and table map
    are untouched, so the entry of a removed measure stays in the map. *)
Theorem handleRemoveMeasure_spec (index : Z) (st : EditorState) :
  (Z.of_nat (length (measures st)) <= index ->
     TileEditor.handleRemoveMeasure index st = st)
  /\ (0 <= index < Z.of_nat (length (measures st)) ->
      measures (TileEditor.handleRemoveMeasure index st)
      = delete (Z.to_nat index) (measures st))
  /\ (index < 0 ->
      measures (TileEditor.handleRemoveMeasure index st)
      = delete (Z.to_nat (Z.max (Z.of_nat (length (measures st)) + index) 0))
          (measures st))
  /\ dimensions (TileEditor.handleRemoveMeasure index st) = dimensions st
  /\ fieldTableMap (TileEditor.handleRemoveMeasure index st) = fieldTableMap st.
Proof.
  unfold TileEditor.handleRemoveMeasure. rewrite splice_one.
  split; [|split; [|split; [|done]]].
  - intros Hge. destruct (Z.leb_spec (Z.of_nat (length (measures st))) index); [|lia].
    by destruct st.
  - intros [Hlo Hhi].
    destruct (Z.leb_spec (Z.of_nat (length (measures st))) index); [lia|].
    destruct (Z.ltb_spec index 0); [lia|]. done.
  - intros Hneg.
    destruct (Z.leb_spec (Z.of_nat (length (measures st))) index); [lia|].
    destruct (Z.ltb_spec index 0); [|lia]. done.
Qed.

Lemma handleRemoveMeasure_spec_witness :
  TileEditor.handleRemoveMeasure 1 Scenario.singleTable = Scenario.singleTable
  /\ measures (TileEditor.handleRemoveMeasure 0 Scenario.singleTable) = []
  /\ measures (TileEditor.handleRemoveMeasure (-1) Scenario.singleTable) = [].
Proof.
  split; [|split].
  - apply (handleRemoveMeasure_spec 1 Scenario.singleTable). simpl. lia.
  - apply (proj1 (proj2 (handleRemoveMeasure_spec 0 Scenario.singleTable))).
    simpl. lia.
  - apply (proj1 (proj2 (proj2 (handleRemoveMeasure_spec (-1) Scenario.singleTable)))).
    lia.
Defined.

(** ** Reopening a stored tile *)

Ltac match_cases :=
  repeat match goal with
         | |- context [match ?x with _ => _ end] => destruct x
         end.

Section Reopen.

Lemma orElse_empty (s : string) : Js.orElse s "" = s.
Proof. by destruct s. Qed.

Lemma orUndef_orUndefined (s : string) : Js.orUndef (orUndefined s) "" = s.
Proof. by destruct s. Qed.

Lemma addAll_constant (u : string) (ts : list string) :
  (forall t, t ∈ ts -> t = u) -> addAll ts [u] = [u].
Proof.
  induction ts as [|t ts IH]; intros Hall; [done|].
  rewrite addAll_cons, (Hall t) by left. unfold Js.setAdd.
  destruct (decide (u ∈ [u])) as [_|Hn]; [|by destruct Hn; left].
  apply IH. intros t' Ht'. apply Hall. by right.
Qed.

Lemma resolveTable_empty (k : string) : resolveTable ∅ k = "unknown_table".
Proof. unfold resolveTable. by rewrite lookup_empty. Qed.

Lemma resolvedTables_no_map (st : EditorState) :
  fieldTableMap st = ∅ ->
  forall t, t ∈ resolvedTables st -> t = "unknown_table".
Proof.
  intros Hmap t. unfold resolvedTables. rewrite Hmap, elem_of_app.
  intros [Ht|Ht]; apply list_elem_of_fmap in Ht as (x & -> & _);
    apply resolveTable_empty.
Qed.

Lemma addAll_no_map (st : EditorState) :
  fieldTableMap st = ∅ -> dimensions st <> [] ->
  addAll (resolvedTables st) [] = ["unknown_table"].
Proof.
  intros Hmap Hd. pose proof (resolvedTables_no_map st Hmap) as Hall.
  destruct (resolvedTables st) as [|t ts] eqn:Hts.
  - unfold resolvedTables in Hts. destruct (dimensions st); [done | discriminate].
  - rewrite addAll_cons, (Hall t) by left. unfold Js.setAdd.
    destruct (decide ("unknown_table" ∈ [])) as [Hin|_]; [inversion Hin|].
    apply addAll_constant. intros t' Ht'. apply Hall. by right.
Qed.

(** The init effects write no table map. *)
Lemma tileInitEffect_fieldTableMap (tile : option Tile) (open : bool) (st : EditorState) :
  fieldTableMap (TileEditor.tileInitEffect tile open st) = fieldTableMap st.
Proof. unfold TileEditor.tileInitEffect. match_cases; reflexivity. Qed.

Lemma tileInitEffect_selection (tile : Tile) (c : TileConfig) (st : EditorState)
    (ds : list DimensionField) (ms : list MeasureField) :
  tile_config tile = Some c ->
  cfg_dimensions c = Some ds ->
  cfg_measures c = Some ms ->
  dimensions (TileEditor.tileInitEffect (Some tile) true st) = ds
  /\ measures (TileEditor.tileInitEffect (Some tile) true st) = ms.
Proof.
  intros Hc Hd Hm. unfold TileEditor.tileInitEffect.
  rewrite Hc, Hd, Hm. simpl negb. cbv iota.
  split; match_cases; reflexivity.
Qed.

(** What the init effect of the first copy leaves in each part of the
    state. *)
Lemma tileInitEffect_state (tile : Tile) (st : EditorState) :
  st_name (TileEditor.tileInitEffect (Some tile) true st) = tile_title tile
  /\ st_description (TileEditor.tileInitEffect (Some tile) true st)
     = Js.orUndef (tile_description tile) ""
  /\ tileType (TileEditor.tileInitEffect (Some tile) true st)
     = Js.orElse (tile_type tile) "chart"
  /\ forall c, tile_config tile = Some c ->
       chartType (TileEditor.tileInitEffect (Some tile) true st)
         = Js.orUndef (cfg_chartType c) "bar"
       /\ dimensions (TileEditor.tileInitEffect (Some tile) true st)
          = default [] (cfg_dimensions c)
       /\ measures (TileEditor.tileInitEffect (Some tile) true st)
          = default [] (cfg_measures c)
       /\ st_connectionId (TileEditor.tileInitEffect (Some tile) true st)
          = match tile_connectionId tile with
            | Some i => if Js.truthy i then i else st_connectionId st
            | None => st_connectionId st
            end
       /\ textRows (TileEditor.tileInitEffect (Some tile) true st)
          = match cfg_textRows c with
            | Some rows => if bool_decide (tile_type tile = "text") then rows
                           else textRows st
            | None => textRows st
            end.
Proof.
  unfold TileEditor.tileInitEffect. simpl negb. cbv iota.
  split; [|split; [|split]].
  - match_cases; change (Js.orElse (tile_title tile) "" = tile_title tile);
      apply orElse_empty.
  - match_cases; reflexivity.
  - match_cases; reflexivity.
  - intros c ->. repeat split; match_cases; reflexivity.
Qed.

End Reopen.

(** ** The init effect of the second copy in closed form *)

Section InitSteps.

Variable uuidv4 : nat -> string.

Lemma tileInitEffectB_steps (tile : Tile) (st : EditorState) :
  TileEditorB.tileInitEffect uuidv4 (Some tile) true st
  = let base :=
      initB_connection tile
        (initB_kind tile
           (setDescription (Js.orUndef (tile_description tile) "")
              (setName (Js.orElse (tile_title tile) "") st))) in
    match tile_config tile with
    | None => base
    | Some config =>
        initB_query config
          (initB_rows uuidv4 config
             (initB_measures config
                (initB_dimensions config (initB_chartType config base))))
    end.
Proof.
  unfold TileEditorB.tileInitEffect, initB_kind, initB_connection, uiTag, legacyKind.
  simpl negb. cbv iota.
  destruct (tile_config tile) as [c|]; [destruct (cfg_uiType c) as [u|];
    [destruct (Js.truthy u)|]|];
    repeat case_bool_decide; reflexivity.
Qed.

Lemma initB_connection_eq (tile : Tile) (st : EditorState) :
  initB_connection tile st
  = setConnectionId
      (match orUndefined (Js.orUndef (tile_connectionId tile) "") with
       | Some i => i
       | None =>
           match tile_config tile with
           | Some c => match orUndefined (Js.orUndef (cfg_connectionId c) "") with
                       | Some i => i
                       | None => st_connectionId st
                       end
           | None => st_connectionId st
           end
       end) st.
Proof. unfold initB_connection. destruct st. repeat case_match; reflexivity. Qed.

Lemma initB_chartType_eq (c : TileConfig) (st : EditorState) :
  initB_chartType c st
  = setChartType
      (match orUndefined (Js.orUndef (cfg_uiChartType c) "") with
       | Some u => u
       | None => match orUndefined (Js.orUndef (cfg_chartType c) "") with
                 | Some x => x
                 | None => chartType st
                 end
       end) st.
Proof. unfold initB_chartType. destruct st. repeat case_match; reflexivity. Qed.

Lemma initB_dimensions_eq (c : TileConfig) (st : EditorState) :
  initB_dimensions c st = setDimensions (default (dimensions st) (cfg_dimensions c)) st.
Proof. unfold initB_dimensions. destruct st. repeat case_match; reflexivity. Qed.

Lemma initB_measures_eq (c : TileConfig) (st : EditorState) :
  initB_measures c st
  = setMeasures
      (match cfg_measures c with
       | Some ms => ms
       | None => match cfg_measure c with
                 | Some m => [m]
                 | None => measures st
                 end
       end) st.
Proof. unfold initB_measures. destruct st. repeat case_match; reflexivity. Qed.

Lemma initB_rows_eq (c : TileConfig) (st : EditorState) :
  initB_rows uuidv4 c st
  = setTextRows
      (match cfg_textRows c with
       | Some rows => TileEditorB.fillIds uuidv4 0 rows
       | None => textRows st
       end) st.
Proof. unfold initB_rows. destruct st. repeat case_match; reflexivity. Qed.

Lemma initB_query_eq (c : TileConfig) (st : EditorState) :
  initB_query c st
  = setCustomQuery
      (match cfg_isQueryMode c with
       | Some true => match orUndefined (Js.orUndef (cfg_customQuery c) "") with
                      | Some q => q
                      | None => customQuery st
                      end
       | _ => customQuery st
       end)
      (setIsQueryMode
         (match cfg_isQueryMode c with
          | Some true => true
          | _ => isQueryMode st
          end) st).
Proof. unfold initB_query. destruct st. repeat case_match; reflexivity. Qed.

(** What reopening a tile with a configuration leaves in each part of
    the editor state. *)
Lemma tileInitEffectB_closed (tile : Tile) (c : TileConfig) (st : EditorState) :
  tile_config tile = Some c ->
  TileEditorB.tileInitEffect uuidv4 (Some tile) true st
  = mkState
      (tile_title tile)
      (Js.orUndef (tile_description tile) "")
      (match uiTag tile with
       | Some u => u
       | None => legacyKind (tile_type tile)
       end)
      (match orUndefined (Js.orUndef (tile_connectionId tile) "") with
       | Some i => i
       | None => match orUndefined (Js.orUndef (cfg_connectionId c) "") with
                 | Some i => i
                 | None => st_connectionId st
                 end
       end)
      (match orUndefined (Js.orUndef (cfg_uiChartType c) "") with
       | Some u => u
       | None => match orUndefined (Js.orUndef (cfg_chartType c) "") with
                 | Some x => x
                 | None => chartType st
                 end
       end)
      (match cfg_textRows c with
       | Some rows => TileEditorB.fillIds uuidv4 0 rows
       | None => textRows st
       end)
      (match cfg_isQueryMode c with
       | Some true => true
       | _ => isQueryMode st
       end)
      (match cfg_isQueryMode c with
       | Some true => match orUndefined (Js.orUndef (cfg_customQuery c) "") with
                      | Some q => q
                      | None => customQuery st
                      end
       | _ => customQuery st
       end)
      (default (dimensions st) (cfg_dimensions c))
      (match cfg_measures c with
       | Some ms => ms
       | None => match cfg_measure c with
                 | Some m => [m]
                 | None => measures st
                 end
       end)
      (saving st) (error st) (fieldTableMap st).
Proof.
  intros Hc. rewrite tileInitEffectB_steps. cbv zeta. rewrite Hc.
  rewrite initB_query_eq, initB_rows_eq, initB_measures_eq, initB_dimensions_eq,
    initB_chartType_eq, initB_connection_eq, Hc.
  unfold initB_kind. rewrite orElse_empty.
  by destruct (uiTag tile).
Qed.

Lemma tileInitEffectB_fieldTableMap (tile : option Tile) (open : bool)
    (st : EditorState) :
  fieldTableMap (TileEditorB.tileInitEffect uuidv4 tile open st) = fieldTableMap st.
Proof.
  destruct tile as [tile|], open; try reflexivity.
  destruct (tile_config tile) as [c|] eqn:Hc.
  - by rewrite (tileInitEffectB_closed tile c).
  - rewrite tileInitEffectB_steps. cbv zeta. rewrite Hc, initB_connection_eq.
    unfold initB_kind. by destruct (uiTag tile).
Qed.

End InitSteps.

(** X14.  Reopening a stored chart or table tile in an editor whose
    table map is empty (a freshly mounted one) restores the selection
    but no table: on both copies every column of the preview, and the
    FROM clause, name unknown_table, and the second copy leaves the
    JOIN slot empty however many tables the tile was built from. *)
Theorem reopened_preview_unknown_table (uuidv4 : nat -> string)
    (tile : Tile) (c : TileConfig) (st0 : EditorState)
    (ds : list DimensionField) (ms : list MeasureField) :
  tile_config tile = Some c ->
  cfg_dimensions c = Some ds ->
  cfg_measures c = Some ms ->
  ds <> [] ->
  ms <> [] ->
  fieldTableMap st0 = ∅ ->
  TileEditor.generateSqlQuery (TileEditor.tileInitEffect (Some tile) true st0)
  = "SELECT "
      +:+ Js.join ", "
            (map (fun d => "unknown_table" +:+ "." +:+ dim_fieldName d) ds
             ++ map (fun m => aggregation m +:+ "(" +:+ "unknown_table" +:+ "."
                              +:+ fieldName m +:+ ") as " +:+ aliasOrName m) ms)
      +:+ " " +:+ Js.LF +:+ "FROM " +:+ "unknown_table"
      +:+ " " +:+ Js.LF +:+ "GROUP BY "
      +:+ Js.join ", " (map (fun d => "unknown_table" +:+ "." +:+ dim_fieldName d) ds)
  /\ TileEditorB.generateSqlQuery
       (TileEditorB.tileInitEffect uuidv4 (Some tile) true st0)
  = "SELECT "
      +:+ Js.join ", "
            (map (fun d => "unknown_table" +:+ "." +:+ dim_fieldName d) ds
             ++ map (fun m => aggregation m +:+ "(" +:+ "unknown_table" +:+ "."
                              +:+ fieldName m +:+ ") as " +:+ aliasPrinted m) ms)
      +:+ " FROM " +:+ "unknown_table" +:+ " " +:+ "" +:+ " " +:+ "GROUP BY "
      +:+ Js.join ", " (map (fun d => "unknown_table" +:+ "." +:+ dim_fieldName d) ds).
Proof.
  intros Hc Hd Hm Hds Hms Hmap.
  destruct (tileInitEffect_selection tile c st0 ds ms Hc Hd Hm) as [Hd1 Hm1].
  assert (dimensions (TileEditorB.tileInitEffect uuidv4 (Some tile) true st0) = ds
          /\ measures (TileEditorB.tileInitEffect uuidv4 (Some tile) true st0) = ms)
    as [Hd2 Hm2] by (rewrite (tileInitEffectB_closed uuidv4 tile c) by done;
                     simpl; by rewrite Hd, Hm).
  pose proof (tileInitEffect_fieldTableMap (Some tile) true st0) as Hmap1.
  pose proof (tileInitEffectB_fieldTableMap uuidv4 (Some tile) true st0) as Hmap2.
  rewrite Hmap in Hmap1, Hmap2.
  split.
  - rewrite generateSqlQuery_complete by (by rewrite ?Hd1, ?Hm1).
    rewrite addAll_no_map by (by rewrite ?Hd1).
    unfold dimensionColumn, measureColumn. rewrite Hd1, Hm1, Hmap1.
    rewrite (map_ext _ (fun d => "unknown_table" +:+ "." +:+ dim_fieldName d))
      by (intros d; by rewrite resolveTable_empty).
    rewrite (map_ext (fun m : MeasureField => _ +:+ _)
               (fun m => aggregation m +:+ "(" +:+ "unknown_table" +:+ "."
                         +:+ fieldName m +:+ ") as " +:+ aliasOrName m))
      by (intros m; by rewrite resolveTable_empty).
    reflexivity.
  - rewrite generateSqlQueryB_complete by (by rewrite ?Hd2, ?Hm2).
    rewrite addAll_no_map by (by rewrite ?Hd2).
    unfold dimensionColumn, measureColumn. rewrite Hd2, Hm2, Hmap2.
    rewrite (map_ext _ (fun d => "unknown_table" +:+ "." +:+ dim_fieldName d))
      by (intros d; by rewrite resolveTable_empty).
    rewrite (map_ext (fun m : MeasureField => _ +:+ _)
               (fun m => aggregation m +:+ "(" +:+ "unknown_table" +:+ "."
                         +:+ fieldName m +:+ ") as " +:+ aliasPrinted m))
      by (intros m; by rewrite resolveTable_empty).
    reflexivity.
Qed.

(** ** What a save attempt does *)

Section SaveProtocol.

Lemma handleSave_config_frame (st : EditorState) (b : bool) (e : string) :
  TileEditor.handleSave_config (setSaving b (setError e st))
  = TileEditor.handleSave_config st.
Proof. reflexivity. Qed.

(** A state that passes the gate of the first copy has one of the five
    UI kinds, and its configuration is built with the kind as tag: the
    early return of the metric case is out of reach. *)
Lemma isValid_config (st : EditorState) :
  TileEditor.isValid st = true ->
  exists config,
    TileEditor.handleSave_config st = Some config
    /\ cfg_uiType config = Some (tileType st)
    /\ TileEditor.handleSave_backendType (tileType st) ∈ ["chart"; "text"; "kpi"].
Proof.
  unfold TileEditor.isValid, TileEditor.handleSave_config,
    TileEditor.handleSave_backendType.
  destruct (negb _); [done|].
  destruct (bool_decide (tileType st = "chart")) eqn:Hchart.
  { apply bool_decide_eq_true in Hchart. intros _. eexists. split; [done|].
    simpl. split; [by rewrite Hchart | set_solver]. }
  destruct (bool_decide (tileType st = "table")) eqn:Htable.
  { apply bool_decide_eq_true in Htable. intros _. eexists. split; [done|].
    simpl. split; [by rewrite Htable | set_solver]. }
  simpl orb. cbv iota.
  destruct (bool_decide (tileType st = "metric")) eqn:Hmetric.
  { apply bool_decide_eq_true in Hmetric. intros Hv.
    apply andb_true_iff in Hv as [_ Hlen].
    destruct (measures st) as [|m ms]; [done|]. simpl.
    eexists. split; [done|]. simpl. split; [by rewrite Hmetric | set_solver]. }
  destruct (bool_decide (tileType st = "text")) eqn:Htext.
  { apply bool_decide_eq_true in Htext. intros _. eexists. split; [done|].
    simpl. split; [by rewrite Htext | set_solver]. }
  destruct (bool_decide (tileType st = "query")) eqn:Hquery; [|done].
  apply bool_decide_eq_true in Hquery. intros _.
  destruct (isQueryMode st); (eexists; split; [done|]);
    simpl; (split; [by rewrite Hquery | set_solver]).
Qed.

Lemma handleSave_cases (tile : option Tile) (dashboardId : string)
    (net : CreateTileDto -> NetResult) (st : EditorState) :
  (TileEditor.isValid st = false
   /\ TileEditor.handleSave tile dashboardId net st
      = (setSaving false (setError "Invalid tile configuration" st), []))
  \/ (TileEditor.isValid st = true
      /\ exists config,
          TileEditor.handleSave_config st = Some config
          /\ TileEditor.handleSave tile dashboardId net st
             = (let tileData :=
                  mkDto (st_name st) (orUndefined (st_description st))
                    (TileEditor.handleSave_backendType (tileType st)) dashboardId
                    (orUndefined (st_connectionId st))
                    (if Js.truthy (st_connectionId st)
                     then config_set_connectionId (Some (st_connectionId st)) config
                     else config)
                    None in
                let call :=
                  match tileIdOf tile with
                  | Some id => UpdateTile id tileData
                  | None => CreateTile tileData
                  end in
                match net tileData with
                | Resolved => (setSaving false (setError "" st), [call; OnSave; OnClose])
                | RejectedError message =>
                    (setSaving false
                       (setError ("Failed to save tile: " +:+ message) st), [call])
                | RejectedOther =>
                    (setSaving false
                       (setError "Failed to save tile: Unknown error" st), [call])
                end)).
Proof.
  unfold TileEditor.handleSave.
  destruct (TileEditor.isValid st) eqn:Hv; [right | left; by split].
  split; [done|]. destruct (isValid_config st Hv) as (config & Hc & _).
  exists config. split; [done|]. simpl negb. cbv iota.
  rewrite handleSave_config_frame, Hc. cbv zeta.
  by destruct (net _).
Qed.

End SaveProtocol.

(** X15.  A save attempt on the first copy either stops at the gate,
    with no call, no callback and only the message Invalid tile
    configuration left behind, or makes exactly one persistence call
    (update when the tile has an identifier, create otherwise) whose
    data carry the title, a backend type among chart, text and kpi and
    the UI kind as tag; onSave and then onClose follow only when that
    call resolves, and a rejected call leaves a message that starts
    with Failed to save tile and the selections as they were. *)
Theorem handleSave_protocol (tile : option Tile) (dashboardId : string)
    (net : CreateTileDto -> NetResult) (st : EditorState) :
  (TileEditor.isValid st = false ->
     TileEditor.handleSave tile dashboardId net st
     = (setSaving false (setError "Invalid tile configuration" st), []))
  /\ (TileEditor.isValid st = true ->
      exists dto call,
        call = match tileIdOf tile with
               | Some id => UpdateTile id dto
               | None => CreateTile dto
               end
        /\ dto_title dto = st_name st
        /\ dto_type dto ∈ ["chart"; "text"; "kpi"]
        /\ cfg_uiType (dto_config dto) = Some (tileType st)
        /\ TileEditor.handleSave tile dashboardId net st
           = match net dto with
             | Resolved => (setSaving false (setError "" st), [call; OnSave; OnClose])
             | RejectedError message =>
                 (setSaving false
                    (setError ("Failed to save tile: " +:+ message) st), [call])
             | RejectedOther =>
                 (setSaving false
                    (setError "Failed to save tile: Unknown error" st), [call])
             end).
Proof.
  destruct (handleSave_cases tile dashboardId net st)
    as [[Hv Hs]|(Hv & config & Hc & Hs)].
  - split; [done | by rewrite Hv].
  - split; [by rewrite Hv|]. intros _.
    destruct (isValid_config st Hv) as (config' & Hc' & Hui & Hty).
    assert (config' = config) as -> by congruence.
    cbv zeta in Hs.
    match type of Hs with
    | _ = match net ?d with _ => _ end => exists d
    end.
    eexists. split; [reflexivity|]. split; [reflexivity|].
    split; [exact Hty|]. split; [|exact Hs].
    simpl. by destruct (Js.truthy (st_connectionId st)).
Qed.

Lemma handleSave_protocol_witness :
  snd (TileEditor.handleSave None "dash-1" (fun _ => RejectedError "timeout")
         Scenario.metricNoMeasure) = []
  /\ exists dto,
       TileEditor.handleSave None "dash-1" (fun _ => RejectedError "timeout")
         Scenario.tableTile
       = (setSaving false
            (setError "Failed to save tile: timeout" Scenario.tableTile),
          [CreateTile dto]).
Proof.
  split.
  - rewrite (proj1 (handleSave_protocol None "dash-1"
                      (fun _ => RejectedError "timeout") Scenario.metricNoMeasure));
      reflexivity.
  - destruct (proj2 (handleSave_protocol None "dash-1"
                       (fun _ => RejectedError "timeout") Scenario.tableTile))
      as (dto & call & -> & _ & _ & _ & Hs); [reflexivity|].
    exists dto. exact Hs.
Defined.

(** ** Saving and reopening *)

Section RoundTrip.

Variable uuidv4 : nat -> string.

Lemma handleSave_sent (tile : option Tile) (dashboardId : string)
    (net : CreateTileDto -> NetResult) (st : EditorState) (dto : CreateTileDto) :
  sentData (snd (TileEditor.handleSave tile dashboardId net st)) = Some dto ->
  TileEditor.isValid st = true
  /\ exists config,
      TileEditor.handleSave_config st = Some config
      /\ dto = mkDto (st_name st) (orUndefined (st_description st))
                 (TileEditor.handleSave_backendType (tileType st)) dashboardId
                 (orUndefined (st_connectionId st))
                 (if Js.truthy (st_connectionId st)
                  then config_set_connectionId (Some (st_connectionId st)) config
                  else config)
                 None.
Proof.
  destruct (handleSave_cases tile dashboardId net st)
    as [[Hv ->]|(Hv & config & Hc & ->)]; [done|].
  cbv zeta. intros Hsent. split; [done|]. exists config. split; [done|].
  destruct (net _), (tileIdOf tile); simpl in Hsent; congruence.
Qed.

Lemma isValidB_true (st st1 : EditorState) :
  TileEditorB.isValid st = (true, st1) ->
  st1 = st
  /\ (tileType st = "chart" \/ tileType st = "table" \/ tileType st = "metric" ->
      Js.truthy (st_connectionId st) = true)
  /\ (tileType st = "metric" -> measures st <> []).
Proof.
  unfold TileEditorB.isValid.
  destruct (negb _); [done|].
  destruct (bool_decide (tileType st = "chart") && _) eqn:H1; [done|].
  destruct (bool_decide (tileType st = "metric") && _) eqn:H2; [done|].
  destruct (_ && negb (Js.truthy (st_connectionId st))) eqn:H3; [done|].
  intros [= <-]. split; [done|]. split.
  - intros Hk. apply andb_false_iff in H3 as [H3|H3].
    + exfalso. destruct Hk as [Hk|[Hk|Hk]]; rewrite Hk in H3; done.
    + by apply negb_false_iff in H3.
  - intros Hk Hnone. rewrite Hk, Hnone in H2. done.
Qed.

Lemma handleSaveB_sent (prev : option Tile) (dashboardId : string)
    (net : CreateTileDto -> NetResult) (st : EditorState) (dto : CreateTileDto) :
  sentData (snd (TileEditorB.handleSave prev dashboardId net st)) = Some dto ->
  TileEditorB.isValid st = (true, st)
  /\ exists config,
      TileEditorB.handleSave_config st = Some config
      /\ dto = mkDto (st_name st) (orUndefined (st_description st))
                 (TileEditorB.handleSave_backendType (tileType st)) dashboardId
                 (orUndefined (st_connectionId st))
                 (if Js.truthy (st_connectionId st)
                  then config_set_connectionId (Some (st_connectionId st)) config
                  else config)
                 (TileEditorB.getTilePosition prev).
Proof.
  unfold TileEditorB.handleSave.
  destruct (TileEditorB.isValid st) as [[|] st1] eqn:Hv; [|done].
  destruct (isValidB_true st st1 Hv) as (-> & _ & _). simpl negb. cbv iota.
  change (TileEditorB.handleSave_config (setSaving true (setError "" st)))
    with (TileEditorB.handleSave_config st).
  destruct (TileEditorB.handleSave_config st) as [config|] eqn:Hc; [|done].
  cbv zeta. intros Hsent. split; [done|]. exists config. split; [done|].
  destruct (net _), (tileIdOf prev); simpl in Hsent; congruence.
Qed.

End RoundTrip.

(** X16.  On the first copy a chart tile and a text tile survive the
    round trip through save and reopen: title, description, kind and,
    for a chart with a chart type set, connection, chart type,
    dimensions and measures, for a text tile the rows, come back as
    they were saved. *)
Theorem save_reopen_chart_text (tile : option Tile) (dashboardId id : string)
    (net : CreateTileDto -> NetResult) (st st0 : EditorState) (dto : CreateTileDto) :
  sentData (snd (TileEditor.handleSave tile dashboardId net st)) = Some dto ->
  (tileType st = "chart" -> chartType st <> "" ->
     st_name (TileEditor.tileInitEffect (Some (tileOfDto id dto)) true st0) = st_name st
     /\ st_description (TileEditor.tileInitEffect (Some (tileOfDto id dto)) true st0)
        = st_description st
     /\ tileType (TileEditor.tileInitEffect (Some (tileOfDto id dto)) true st0) = "chart"
     /\ st_connectionId (TileEditor.tileInitEffect (Some (tileOfDto id dto)) true st0)
        = st_connectionId st
     /\ chartType (TileEditor.tileInitEffect (Some (tileOfDto id dto)) true st0)
        = chartType st
     /\ dimensions (TileEditor.tileInitEffect (Some (tileOfDto id dto)) true st0)
        = dimensions st
     /\ measures (TileEditor.tileInitEffect (Some (tileOfDto id dto)) true st0)
        = measures st)
  /\ (tileType st = "text" ->
      st_name (TileEditor.tileInitEffect (Some (tileOfDto id dto)) true st0) = st_name st
      /\ st_description (TileEditor.tileInitEffect (Some (tileOfDto id dto)) true st0)
         = st_description st
      /\ tileType (TileEditor.tileInitEffect (Some (tileOfDto id dto)) true st0) = "text"
      /\ textRows (TileEditor.tileInitEffect (Some (tileOfDto id dto)) true st0)
         = textRows st).
Proof.
  intros Hsent. destruct (handleSave_sent _ _ _ _ _ Hsent) as (Hv & config & Hc & ->).
  clear Hsent. unfold TileEditor.handleSave_config in Hc.
  revert Hc. generalize (TileEditor.generateSqlQuery st). intros q Hc.
  split.
  - intros Hkind Hct. rewrite Hkind in Hc |- *.
    change (TileEditor.handleSave_backendType "chart") with "chart".
    simpl in Hc. injection Hc as <-.
    unfold TileEditor.isValid in Hv. rewrite Hkind in Hv. simpl in Hv.
    destruct (negb _); [done|].
    apply andb_true_iff in Hv as [Hv _]. apply andb_true_iff in Hv as [Hconn _].
    unfold orUndefined, tileOfDto. rewrite Hconn.
    cbn [dto_title dto_description dto_type dto_connectionId dto_config dto_position].
    match goal with
    | |- context [TileEditor.tileInitEffect (Some ?t) true st0] =>
        destruct (tileInitEffect_state t st0) as (Hn & Hd & Hk & Hcfg);
        destruct (Hcfg _ eq_refl) as (Hct' & Hd' & Hm' & Hconn' & _)
    end.
    rewrite Hn, Hd, Hk, Hct', Hd', Hm', Hconn'.
    cbn [tile_title tile_description tile_type tile_connectionId
         config_set_connectionId cfg_chartType cfg_dimensions cfg_measures].
    rewrite Hconn. apply truthy_iff in Hct. simpl. unfold Js.orElse. rewrite Hct.
    repeat split; try done. by destruct (st_description st).
  - intros Hkind. rewrite Hkind in Hc |- *.
    change (TileEditor.handleSave_backendType "text") with "text".
    simpl in Hc. injection Hc as <-.
    unfold tileOfDto.
    cbn [dto_title dto_description dto_type dto_connectionId dto_config dto_position].
    match goal with
    | |- context [TileEditor.tileInitEffect (Some ?t) true st0] =>
        destruct (tileInitEffect_state t st0) as (Hn & Hd & Hk & Hcfg);
        destruct (Hcfg _ eq_refl) as (_ & _ & _ & _ & Hrows)
    end.
    rewrite Hn, Hd, Hk, Hrows.
    cbn [tile_title tile_description tile_type].
    rewrite orUndef_orUndefined.
    repeat split; try done. by destruct (Js.truthy (st_connectionId st)).
Qed.

Lemma save_reopen_chart_text_witness :
  exists dto,
    sentData (snd (TileEditor.handleSave None "dash-1" (fun _ => Resolved)
                     Scenario.chartTile)) = Some dto
    /\ dimensions (TileEditor.tileInitEffect (Some (tileOfDto "tile-1" dto)) true
                     initialState)
       = [Scenario.regionDim; Scenario.segmentDim].
Proof.
  eexists. split; [vm_compute; reflexivity|].
  apply (save_reopen_chart_text None "dash-1" "tile-1" (fun _ => Resolved)
           Scenario.chartTile initialState);
    [reflexivity | reflexivity | discriminate].
Defined.

Lemma reopened_preview_unknown_table_witness :
  TileEditorB.generateSqlQuery
    (TileEditorB.tileInitEffect Scenario.constantUuid (Some Scenario.storedChart) true
       initialState)
  = "SELECT unknown_table.region, unknown_table.segment, sum(unknown_table.amount) as amount_sum FROM unknown_table  GROUP BY unknown_table.region, unknown_table.segment".
Proof.
  apply (reopened_preview_unknown_table Scenario.constantUuid Scenario.storedChart
           (mkConfig (Some "bar") (Some "bar") (Some "chart")
              (Some [Scenario.regionDim; Scenario.segmentDim])
              (Some [Scenario.amountSum]) None (Some "conn-1") None None None None)
           initialState [Scenario.regionDim; Scenario.segmentDim] [Scenario.amountSum]);
    first [reflexivity | discriminate].
Defined.

Lemma isValid_backend_kind (st : EditorState) :
  tileType st = "kpi" -> TileEditor.isValid st = false.
Proof.
  intros Hk. unfold TileEditor.isValid. rewrite Hk.
  by destruct (negb _).
Qed.

(** X17.  On the first copy a metric tile does not survive the round
    trip: its measure is stored under [measure] and read back from
    [measures], and its backend type is shown as the kind.  The
    reopened editor has kind kpi and no measure, and every save
    attempt from that state stops at the gate. *)
Theorem save_reopen_metric_lossy (tile : option Tile) (dashboardId id : string)
    (net : CreateTileDto -> NetResult) (st st0 : EditorState) (dto : CreateTileDto) :
  tileType st = "metric" ->
  sentData (snd (TileEditor.handleSave tile dashboardId net st)) = Some dto ->
  cfg_measure (dto_config dto) = head (measures st)
  /\ tileType (TileEditor.tileInitEffect (Some (tileOfDto id dto)) true st0) = "kpi"
  /\ measures (TileEditor.tileInitEffect (Some (tileOfDto id dto)) true st0) = []
  /\ forall tile' dashboardId' net',
       TileEditor.handleSave tile' dashboardId' net'
         (TileEditor.tileInitEffect (Some (tileOfDto id dto)) true st0)
       = (setSaving false
            (setError "Invalid tile configuration"
               (TileEditor.tileInitEffect (Some (tileOfDto id dto)) true st0)), []).
Proof.
  intros Hkind Hsent.
  destruct (handleSave_sent _ _ _ _ _ Hsent) as (Hv & config & Hc & ->). clear Hsent.
  unfold TileEditor.handleSave_config in Hc. rewrite Hkind in Hc |- *.
  revert Hc. generalize (TileEditor.generateSqlQuery st). intros q Hc. simpl in Hc.
  destruct (length (measures st) =? 0)%nat; [done|]. injection Hc as <-.
  change (TileEditor.handleSave_backendType "metric") with "kpi".
  unfold tileOfDto.
  cbn [dto_title dto_description dto_type dto_connectionId dto_config dto_position].
  match goal with
  | |- context [TileEditor.tileInitEffect (Some ?t) true st0] =>
      destruct (tileInitEffect_state t st0) as (_ & _ & Hk & Hcfg);
      destruct (Hcfg _ eq_refl) as (_ & _ & Hm' & _)
  end.
  cbn [tile_type] in Hk. change (Js.orElse "kpi" "chart") with "kpi" in Hk.
  split; [by destruct (Js.truthy (st_connectionId st))|].
  split; [exact Hk|]. split.
  - rewrite Hm'. by destruct (Js.truthy (st_connectionId st)).
  - intros tile' dashboardId' net'. unfold TileEditor.handleSave.
    by rewrite (isValid_backend_kind _ Hk).
Qed.

Lemma save_reopen_metric_lossy_witness :
  exists dto,
    sentData (snd (TileEditor.handleSave None "dash-1" (fun _ => Resolved)
                     (setTileType "metric" Scenario.tableTile))) = Some dto
    /\ measures (TileEditor.tileInitEffect (Some (tileOfDto "tile-4" dto)) true
                   initialState) = [].
Proof.
  eexists. split; [vm_compute; reflexivity|].
  apply (save_reopen_metric_lossy None "dash-1" "tile-4" (fun _ => Resolved)
           (setTileType "metric" Scenario.tableTile) initialState);
    reflexivity.
Defined.

(** X18.  On the second copy chart, table and metric tiles survive the
    round trip: title, description, kind, connection and measures come
    back as saved, and so do the dimensions of a chart or table. *)
Theorem save_reopen_second_copy (uuidv4 : nat -> string)
    (prev : option Tile) (dashboardId id : string)
    (net : CreateTileDto -> NetResult) (st st0 : EditorState) (dto : CreateTileDto) :
  tileType st = "chart" \/ tileType st = "table" \/ tileType st = "metric" ->
  sentData (snd (TileEditorB.handleSave prev dashboardId net st)) = Some dto ->
  st_name (TileEditorB.tileInitEffect uuidv4 (Some (tileOfDto id dto)) true st0)
    = st_name st
  /\ st_description (TileEditorB.tileInitEffect uuidv4 (Some (tileOfDto id dto)) true st0)
     = st_description st
  /\ tileType (TileEditorB.tileInitEffect uuidv4 (Some (tileOfDto id dto)) true st0)
     = tileType st
  /\ st_connectionId (TileEditorB.tileInitEffect uuidv4 (Some (tileOfDto id dto)) true st0)
     = st_connectionId st
  /\ measures (TileEditorB.tileInitEffect uuidv4 (Some (tileOfDto id dto)) true st0)
     = measures st
  /\ (tileType st <> "metric" ->
      dimensions (TileEditorB.tileInitEffect uuidv4 (Some (tileOfDto id dto)) true st0)
      = dimensions st).
Proof.
  intros Hkind Hsent.
  destruct (handleSaveB_sent _ _ _ _ _ Hsent) as (Hv & config & Hc & ->). clear Hsent.
  destruct (isValidB_true st st Hv) as (_ & Hconn & Hmetric).
  specialize (Hconn Hkind). unfold TileEditorB.handleSave_config in Hc.
  revert Hc. generalize (TileEditorB.generateSqlQuery st). intros q Hc.
  unfold tileOfDto, orUndefined. rewrite Hconn.
  cbn [dto_title dto_description dto_type dto_connectionId dto_config dto_position].
  erewrite tileInitEffectB_closed by reflexivity.
  cbn [st_name st_description tileType st_connectionId measures dimensions
       tile_title tile_description tile_connectionId].
  unfold uiTag.
  cbn [tile_config tile_type Js.orUndef orUndefined].
  unfold Js.orElse. rewrite Hconn. cbn iota.
  assert (Js.orUndef
            (if Js.truthy (st_description st) then Some (st_description st) else None)
            "" = st_description st) as Hdesc by (by destruct (st_description st)).
  destruct Hkind as [Hk|[Hk|Hk]]; rewrite Hk in Hc |- *; simpl in Hc.
  - injection Hc as <-. simpl.
    repeat split; try done. unfold orUndefined. by rewrite Hconn.
  - injection Hc as <-. simpl.
    repeat split; try done. unfold orUndefined. by rewrite Hconn.
  - destruct (measures st) as [|m ms] eqn:Hms; [by destruct (Hmetric Hk)|].
    simpl in Hc. injection Hc as <-. simpl.
    repeat split; try done. unfold orUndefined. by rewrite Hconn.
Qed.

Lemma save_reopen_second_copy_witness :
  exists dto,
    sentData (snd (TileEditorB.handleSave None "dash-1" (fun _ => Resolved)
                     Scenario.chartTile)) = Some dto
    /\ measures (TileEditorB.tileInitEffect Scenario.constantUuid
                   (Some (tileOfDto "tile-1" dto)) true initialState)
       = [Scenario.amountSum].
Proof.
  eexists. split; [vm_compute; reflexivity|].
  apply (save_reopen_second_copy Scenario.constantUuid None "dash-1" "tile-1"
           (fun _ => Resolved) Scenario.chartTile initialState);
    [by left | reflexivity].
Defined.

(** ** The rows of a text tile *)

Section TextRows.

Lemma setTextRows_id (st : EditorState) : setTextRows (textRows st) st = st.
Proof. by destruct st. Qed.

Lemma setTextRows_twice (r1 r2 : list TextRow) (st : EditorState) :
  setTextRows r2 (setTextRows r1 st) = setTextRows r2 st.
Proof. reflexivity. Qed.

Lemma map_row_ids (f : TextRow -> TextRow) (rows : list TextRow) :
  (forall row, row_id (f row) = row_id row) ->
  row_id <$> map f rows = row_id <$> rows.
Proof.
  intros Hf. induction rows as [|row rows IH]; [done|].
  change (row_id (f row) :: (row_id <$> map f rows) = row_id row :: (row_id <$> rows)).
  by rewrite Hf, IH.
Qed.

Lemma map_rows_unchanged (f : TextRow -> TextRow) (rows : list TextRow) :
  (forall row, row ∈ rows -> f row = row) -> map f rows = rows.
Proof.
  induction rows as [|row rows IH]; intros Hf; [done|].
  simpl. rewrite Hf by left. f_equal. apply IH. intros r Hr. apply Hf. by right.
Qed.

Lemma hasTextContent_exists (rows : list TextRow) :
  TileEditor.hasTextContent rows = true
  <-> exists row, row ∈ rows /\ Js.trim (content row) <> "".
Proof.
  unfold TileEditor.hasTextContent. rewrite andb_true_iff, existsb_exists.
  split.
  - intros [_ (row & Hin & Ht)]. exists row.
    split; [by apply list_elem_of_In | by apply truthy_iff].
  - intros (row & Hin & Ht). split.
    + by destruct rows; [inversion Hin|].
    + exists row. split; [by apply list_elem_of_In | by apply truthy_iff].
Qed.

End TextRows.

(** X19.  Removing a text row on the first copy drops every row that
    carries the identifier and keeps the others in their order; an
    identifier no row carries changes nothing, and removing twice is
    removing once.  When every row carried the identifier, a text tile
    is left without rows and no longer passes the gate. *)
Theorem handleRemoveTextRow_spec (id : string) (st : EditorState) :
  (forall row, row ∈ textRows (TileEditor.handleRemoveTextRow id st)
               <-> row ∈ textRows st /\ row_id row <> id)
  /\ textRows (TileEditor.handleRemoveTextRow id st) `sublist_of` textRows st
  /\ ((forall row, row ∈ textRows st -> row_id row <> id) ->
      TileEditor.handleRemoveTextRow id st = st)
  /\ TileEditor.handleRemoveTextRow id (TileEditor.handleRemoveTextRow id st)
     = TileEditor.handleRemoveTextRow id st
  /\ ((forall row, row ∈ textRows st -> row_id row = id) ->
      tileType st = "text" ->
      TileEditor.isValid (TileEditor.handleRemoveTextRow id st) = false).
Proof.
  unfold TileEditor.handleRemoveTextRow.
  split; [|split; [|split; [|split]]].
  - intros row. simpl. rewrite list_elem_of_filter. tauto.
  - simpl. apply sublist_filter.
  - intros Hnone.
    assert (filter (fun row => row_id row <> id) (textRows st) = textRows st) as ->.
    { induction (textRows st) as [|row rows IH]; [done|].
      rewrite filter_cons_True by (apply Hnone; left).
      f_equal. apply IH. intros r Hr. apply Hnone. by right. }
    apply setTextRows_id.
  - simpl. rewrite setTextRows_twice. f_equal.
    rewrite list_filter_filter. apply list_filter_iff. tauto.
  - intros Hall Hkind. unfold TileEditor.isValid. simpl. rewrite Hkind.
    rewrite (filter_none _ (textRows st))
      by (intros row Hin Hne; by apply Hne, Hall).
    by destruct (negb _).
Qed.

Lemma handleRemoveTextRow_spec_witness :
  TileEditor.handleRemoveTextRow "r9" Scenario.textTile = Scenario.textTile.
Proof.
  apply (proj1 (proj2 (proj2 (handleRemoveTextRow_spec "r9" Scenario.textTile)))).
  intros row Hin. repeat (apply elem_of_cons in Hin as [->|Hin]; [discriminate|]).
  inversion Hin.
Defined.

(** X20.  Editing the content of a text row on the first copy keeps
    the number of rows and every identifier, type and query flag; the
    rows that carry the identifier get the new content and the others
    keep theirs.  With unique identifiers exactly the row at that
    position changes.  On a titled text tile, giving any existing row a
    content that is not blank makes the tile pass the gate. *)
Theorem handleTextRowContentChange_spec (id c : string) (st : EditorState) :
  row_id <$> textRows (TileEditor.handleTextRowContentChange id c st)
    = row_id <$> textRows st
  /\ row_type <$> textRows (TileEditor.handleTextRowContentChange id c st)
     = row_type <$> textRows st
  /\ isQuery <$> textRows (TileEditor.handleTextRowContentChange id c st)
     = isQuery <$> textRows st
  /\ content <$> textRows (TileEditor.handleTextRowContentChange id c st)
     = (fun row => if bool_decide (row_id row = id) then c else content row)
         <$> textRows st
  /\ (forall i row,
        NoDup (row_id <$> textRows st) ->
        textRows st !! i = Some row -> row_id row = id ->
        textRows (TileEditor.handleTextRowContentChange id c st)
        = <[i := mkTextRow (row_id row) (row_type row) c (isQuery row)]> (textRows st))
  /\ (tileType st = "text" ->
      Js.trim (st_name st) <> "" ->
      (exists row, row ∈ textRows st /\ row_id row = id) ->
      Js.trim c <> "" ->
      TileEditor.isValid (TileEditor.handleTextRowContentChange id c st) = true).
Proof.
  unfold TileEditor.handleTextRowContentChange. simpl.
  split; [|split; [|split; [|split; [|split]]]].
  - apply map_row_ids. intros row. by case_bool_decide.
  - induction (textRows st) as [|row rows IH]; [done|].
    rewrite map_cons, !fmap_cons, <- IH. f_equal. by case_bool_decide.
  - induction (textRows st) as [|row rows IH]; [done|].
    rewrite map_cons, !fmap_cons, <- IH. f_equal. by case_bool_decide.
  - induction (textRows st) as [|row rows IH]; [done|].
    rewrite map_cons, !fmap_cons, <- IH. f_equal. by case_bool_decide.
  - intros i row Hnd Hi Hid. revert i Hi Hnd.
    induction (textRows st) as [|r rows IH]; intros i Hi Hnd; [done|].
    apply NoDup_cons in Hnd as [Hnotin Hnd]. destruct i as [|i]; simpl in *.
    + injection Hi as ->. rewrite bool_decide_eq_true_2 by done. f_equal.
      apply map_rows_unchanged. intros r Hr.
      rewrite bool_decide_eq_false_2; [done|].
      intros Heq. apply Hnotin. rewrite Hid, <- Heq. by apply list_elem_of_fmap_2.
    + rewrite bool_decide_eq_false_2.
      * f_equal. by apply IH.
      * intros Heq. apply Hnotin. rewrite Heq, <- Hid.
        apply list_elem_of_fmap_2. by eapply list_elem_of_lookup_2.
  - intros Hkind Htitle (row & Hin & Hid) Hc.
    unfold TileEditor.isValid. simpl. rewrite Hkind.
    apply truthy_iff in Htitle. rewrite Htitle. simpl.
    apply hasTextContent_exists.
    exists (mkTextRow (row_id row) (row_type row) c (isQuery row)). split; [|done].
    apply list_elem_of_fmap. exists row.
    split; [by rewrite bool_decide_eq_true_2 | done].
Qed.

Lemma handleTextRowContentChange_spec_witness :
  TileEditor.isValid
    (TileEditor.handleTextRowContentChange "r2" "Revenue is up"
       (TileEditor.handleTextRowContentChange "r1" "" Scenario.textTile)) = true.
Proof.
  apply (handleTextRowContentChange_spec "r2" "Revenue is up"
           (TileEditor.handleTextRowContentChange "r1" "" Scenario.textTile)).
  - reflexivity.
  - discriminate.
  - eexists. split; [right; left|]; reflexivity.
  - discriminate.
Defined.

(** X21.  On the first copy toggling the query flag of a row twice
    gives back the state one started from, and of two type changes or
    two content changes of one row the later one wins. *)
Theorem row_edits_compose (id : string) (a b : string) (st : EditorState) :
  TileEditor.handleToggleRowQueryMode id (TileEditor.handleToggleRowQueryMode id st) = st
  /\ TileEditor.handleTextRowTypeChange id b (TileEditor.handleTextRowTypeChange id a st)
     = TileEditor.handleTextRowTypeChange id b st
  /\ TileEditor.handleTextRowContentChange id b
       (TileEditor.handleTextRowContentChange id a st)
     = TileEditor.handleTextRowContentChange id b st.
Proof.
  unfold TileEditor.handleToggleRowQueryMode, TileEditor.handleTextRowTypeChange,
    TileEditor.handleTextRowContentChange.
  simpl. rewrite !setTextRows_twice, !map_map.
  split; [|split].
  - rewrite map_rows_unchanged; [apply setTextRows_id|].
    intros [i t c q] _. simpl. destruct (decide (i = id)) as [->|Hne].
    + rewrite !(bool_decide_eq_true_2 (id = id)) by done. simpl.
      by rewrite negb_involutive.
    + rewrite !(bool_decide_eq_false_2 (i = id)) by done. simpl.
      by rewrite ?(bool_decide_eq_false_2 (i = id)).
  - f_equal. apply map_ext. intros [i t c q]. simpl.
    destruct (decide (i = id)) as [->|Hne].
    + rewrite !(bool_decide_eq_true_2 (id = id)) by done. simpl.
      by rewrite ?(bool_decide_eq_true_2 (id = id)).
    + rewrite !(bool_decide_eq_false_2 (i = id)) by done. simpl.
      by rewrite ?(bool_decide_eq_false_2 (i = id)).
  - f_equal. apply map_ext. intros [i t c q]. simpl.
    destruct (decide (i = id)) as [->|Hne].
    + rewrite !(bool_decide_eq_true_2 (id = id)) by done. simpl.
      by rewrite ?(bool_decide_eq_true_2 (id = id)).
    + rewrite !(bool_decide_eq_false_2 (i = id)) by done. simpl.
      by rewrite ?(bool_decide_eq_false_2 (i = id)).
Qed.

(** X22.  Row identifiers stay unique on the first copy: none of the
    row handlers introduces a repeated identifier, and a new row keeps
    them unique when its generated identifier is fresh. *)
Theorem row_ids_unique (id v uuid : string) (st : EditorState) :
  NoDup (row_id <$> textRows st) ->
  NoDup (row_id <$> textRows (TileEditor.handleTextRowContentChange id v st))
  /\ NoDup (row_id <$> textRows (TileEditor.handleTextRowTypeChange id v st))
  /\ NoDup (row_id <$> textRows (TileEditor.handleToggleRowQueryMode id st))
  /\ NoDup (row_id <$> textRows (TileEditor.handleRemoveTextRow id st))
  /\ (uuid ∉ row_id <$> textRows st ->
      NoDup (row_id <$> textRows (TileEditor.handleAddTextRow uuid st))).
Proof.
  intros Hnd.
  unfold TileEditor.handleToggleRowQueryMode, TileEditor.handleTextRowTypeChange,
    TileEditor.handleTextRowContentChange, TileEditor.handleRemoveTextRow,
    TileEditor.handleAddTextRow. simpl.
  rewrite !map_row_ids by (intros row; by case_bool_decide).
  split; [done|]. split; [done|]. split; [done|]. split.
  - eapply sublist_NoDup; [exact Hnd|]. apply fmap_sublist, sublist_filter.
  - intros Hfresh. rewrite fmap_app. apply NoDup_app. split; [done|].
    split; [|apply NoDup_singleton].
    intros x Hx Hx'. apply list_elem_of_singleton in Hx' as ->. done.
Qed.

Lemma row_ids_unique_witness :
  NoDup (row_id <$> textRows (TileEditor.handleAddTextRow "r3" Scenario.textTile)).
Proof.
  apply (row_ids_unique "r1" "" "r3" Scenario.textTile).
  - simpl. apply NoDup_cons. split; [|apply NoDup_singleton].
    intros Hin. apply list_elem_of_singleton in Hin. discriminate.
  - simpl. intros Hin.
    repeat (apply elem_of_cons in Hin as [Hin|Hin]; [discriminate|]).
    inversion Hin.
Defined.

(** ** Saving on the third copy *)

(** X23.  The third copy saves without a gate: unless the tile is a
    metric without measures, a save attempt makes the persistence call
    whatever the title and the selections are, sends the UI kind as
    the type and no position, and never calls onClose; onSave follows
    when the call resolves. *)
Theorem handleSave_part000_ungated (tile : option Tile) (dashboardId : string)
    (net : CreateTileDto -> NetResult) (st : EditorState) :
  (tileType st = "metric" -> measures st = [] ->
     snd (Part000.handleSave tile dashboardId net st) = []
     /\ error (fst (Part000.handleSave tile dashboardId net st))
        = "At least one measure is required for a metric tile")
  /\ (~ (tileType st = "metric" /\ measures st = []) ->
      exists dto,
        sentData (snd (Part000.handleSave tile dashboardId net st)) = Some dto
        /\ dto_title dto = st_name st
        /\ dto_type dto = tileType st
        /\ dto_position dto = None
        /\ ~ In OnClose (snd (Part000.handleSave tile dashboardId net st))
        /\ (net dto = Resolved ->
            snd (Part000.handleSave tile dashboardId net st)
            = [match tileIdOf tile with
               | Some id => UpdateTile id dto
               | None => CreateTile dto
               end; OnSave])).
Proof.
  unfold Part000.handleSave. cbv zeta.
  change (Part000.handleSave_config (setSaving true (setError "" st)))
    with (Part000.handleSave_config st).
  split.
  - intros Hk Hm. unfold Part000.handleSave_config. rewrite Hk, Hm. by simpl.
  - intros Hnot.
    assert (exists config, Part000.handleSave_config st = Some config)
      as [config ->].
    { unfold Part000.handleSave_config.
      generalize (Part000.generateSqlQuery st). intros q.
      repeat case_bool_decide; try by eexists.
      destruct (measures st) eqn:Hm; [by destruct Hnot | by eexists]. }
    exists (mkDto (st_name st) (orUndefined (st_description st)) (tileType st)
              dashboardId (orUndefined (st_connectionId st)) config None).
    split; [|split; [|split; [|split; [|split]]]].
    2-4: reflexivity.
    + destruct (net _), (tileIdOf tile); reflexivity.
    + destruct (net _), (tileIdOf tile); simpl; intuition discriminate.
    + simpl. intros ->. reflexivity.
Qed.

Lemma handleSave_part000_ungated_witness :
  exists dto,
    sentData (snd (Part000.handleSave None "dash-1" (fun _ => Resolved) initialState))
      = Some dto
    /\ dto_title dto = "".
Proof.
  destruct (proj2 (handleSave_part000_ungated None "dash-1" (fun _ => Resolved)
                     initialState)) as (dto & Hsent & Htitle & _).
  - intros [Hk _]. discriminate Hk.
  - exists dto. split; [exact Hsent | exact Htitle].
Defined.

(** ** The position sent by the second copy *)



(** ** Row identifiers on reopening *)

Section FillIds.

Variable uuidv4 : nat -> string.

Lemma fillIds_ids_from (k : nat) (rows : list TextRow) (i : string) :
  i ∈ row_id <$> TileEditorB.fillIds uuidv4 k rows ->
  (i <> "" /\ i ∈ row_id <$> rows) \/ (exists n, (k <= n)%nat /\ i = uuidv4 n).
Proof.
  revert k. induction rows as [|row rows IH]; intros k Hin; [by inversion Hin|].
  simpl in Hin. destruct (Js.truthy (row_id row)) eqn:Ht.
  - rewrite fmap_cons in Hin. apply elem_of_cons in Hin as [->|Hin].
    + left. split; [by apply truthy_iff | left].
    + destruct (IH _ Hin) as [[Hne Hi]|Hn]; [left; split; [done | by right] | by right].
  - rewrite fmap_cons in Hin. apply elem_of_cons in Hin as [->|Hin].
    + right. by exists k.
    + destruct (IH _ Hin) as [[Hne Hi]|(n & Hn & ->)];
        [left; split; [done | by right] | right; exists n; split; [lia | done]].
Qed.

End FillIds.

(** X25.  Reopening a text tile on the second copy gives every row
    without an identifier a generated one and leaves the rest of each
    row alone: the number of rows, their contents, types and query
    flags are kept, a row that has an identifier stays as it is (so
    rows that all have one come back unchanged), no row is left
    without an identifier when the generator never yields the empty
    string, and the identifiers are unique when the stored ones were
    and the generator yields fresh, pairwise distinct values. *)
Theorem fillIds_spec (uuidv4 : nat -> string) (k : nat) (rows : list TextRow) :
  length (TileEditorB.fillIds uuidv4 k rows) = length rows
  /\ content <$> TileEditorB.fillIds uuidv4 k rows = content <$> rows
  /\ row_type <$> TileEditorB.fillIds uuidv4 k rows = row_type <$> rows
  /\ isQuery <$> TileEditorB.fillIds uuidv4 k rows = isQuery <$> rows
  /\ (forall i row, rows !! i = Some row -> row_id row <> "" ->
        TileEditorB.fillIds uuidv4 k rows !! i = Some row)
  /\ ((forall row, row ∈ rows -> row_id row <> "") ->
      TileEditorB.fillIds uuidv4 k rows = rows)
  /\ ((forall n, uuidv4 n <> "") ->
      forall row, row ∈ TileEditorB.fillIds uuidv4 k rows -> row_id row <> "")
  /\ ((forall n m, uuidv4 n = uuidv4 m -> n = m) ->
      (forall n, uuidv4 n ∉ row_id <$> rows) ->
      NoDup (filter (fun i => i <> "") (row_id <$> rows)) ->
      NoDup (row_id <$> TileEditorB.fillIds uuidv4 k rows)).
Proof.
  split; [|split; [|split; [|split; [|split; [|split; [|split]]]]]].
  - revert k. induction rows as [|row rows IH]; intros k; [done|].
    simpl. destruct (Js.truthy _); simpl; by rewrite IH.
  - revert k. induction rows as [|row rows IH]; intros k; [done|].
    simpl. destruct (Js.truthy _); rewrite !fmap_cons, IH; done.
  - revert k. induction rows as [|row rows IH]; intros k; [done|].
    simpl. destruct (Js.truthy _); rewrite !fmap_cons, IH; done.
  - revert k. induction rows as [|row rows IH]; intros k; [done|].
    simpl. destruct (Js.truthy _); rewrite !fmap_cons, IH; done.
  - revert k. induction rows as [|row rows IH]; intros k i r Hi Hne; [done|].
    simpl. destruct i as [|i]; simpl in Hi.
    + injection Hi as ->. apply truthy_iff in Hne. by rewrite Hne.
    + destruct (Js.truthy _); simpl; by apply IH.
  - revert k. induction rows as [|row rows IH]; intros k Hall; [done|].
    simpl. assert (Js.truthy (row_id row) = true) as ->
      by (apply truthy_iff, Hall; left).
    f_equal. apply IH. intros r Hr. apply Hall. by right.
  - intros Hgen. revert k. induction rows as [|row rows IH]; intros k r Hr;
      [by inversion Hr|].
    simpl in Hr. destruct (Js.truthy (row_id row)) eqn:Ht.
    + apply elem_of_cons in Hr as [->|Hr]; [by apply truthy_iff | by eapply IH].
    + apply elem_of_cons in Hr as [->|Hr]; [apply Hgen | by eapply IH].
  - intros Hinj Hfresh. revert k.
    induction rows as [|row rows IH]; intros k Hnd; [apply NoDup_nil_2|].
    assert (forall n, uuidv4 n ∉ row_id <$> rows) as Hfresh'
      by (intros n Hn; apply (Hfresh n); rewrite fmap_cons; by right).
    simpl. destruct (Js.truthy (row_id row)) eqn:Ht.
    + rewrite fmap_cons in Hnd |- *.
      rewrite filter_cons_True in Hnd by (by apply truthy_iff).
      apply NoDup_cons in Hnd as [Hnotin Hnd]. apply NoDup_cons. split; [|by apply IH].
      intros Hin. apply fillIds_ids_from in Hin as [[Hne Hin]|(n & _ & Heq)].
      * apply Hnotin. by apply list_elem_of_filter.
      * apply (Hfresh n). rewrite <- Heq, fmap_cons. left.
    + rewrite fmap_cons in Hnd |- *.
      rewrite filter_cons_False in Hnd
        by (intros Hne; apply truthy_iff in Hne; congruence).
      apply NoDup_cons. split; [|by apply IH].
      intros Hin. apply fillIds_ids_from in Hin as [[_ Hin]|(n & Hn & Heq)].
      * by apply (Hfresh' k).
      * apply Hinj in Heq. lia.
Qed.

Lemma fillIds_spec_witness :
  TileEditorB.fillIds Scenario.constantUuid 0 (textRows Scenario.textTile)
  = textRows Scenario.textTile.
Proof.
  apply (proj1 (proj2 (proj2 (proj2 (proj2 (proj2
           (fillIds_spec Scenario.constantUuid 0 (textRows Scenario.textTile)))))))).
  intros row Hin. repeat (apply elem_of_cons in Hin as [->|Hin]; [discriminate|]).
  inversion Hin.
Defined.

(** ** Changing the connection *)

(** X27.  Changing the connection on the first copy empties both
    selections and keeps the table map with its now stale entries: the
    preview is empty and a chart, table or metric tile no longer passes
    the gate.  The connection object handed on is one of the list with
    the chosen identifier, the first such, or none when the list has no
    such entry or the value is empty. *)
Theorem handleConnectionChange_spec {DatabaseConnection : Type}
    (conn_id : DatabaseConnection -> string)
    (connections : list DatabaseConnection) (v : string) (st : EditorState) :
  st_connectionId (fst (TileEditor.handleConnectionChange conn_id connections v st)) = v
  /\ dimensions (fst (TileEditor.handleConnectionChange conn_id connections v st)) = []
  /\ measures (fst (TileEditor.handleConnectionChange conn_id connections v st)) = []
  /\ fieldTableMap (fst (TileEditor.handleConnectionChange conn_id connections v st))
     = fieldTableMap st
  /\ textRows (fst (TileEditor.handleConnectionChange conn_id connections v st))
     = textRows st
  /\ tileType (fst (TileEditor.handleConnectionChange conn_id connections v st))
     = tileType st
  /\ TileEditor.generateSqlQuery
       (fst (TileEditor.handleConnectionChange conn_id connections v st)) = ""
  /\ (tileType st = "chart" \/ tileType st = "table" \/ tileType st = "metric" ->
      TileEditor.isValid
        (fst (TileEditor.handleConnectionChange conn_id connections v st)) = false)
  /\ (forall c,
        snd (TileEditor.handleConnectionChange conn_id connections v st) = Some c ->
        v <> "" /\ conn_id c = v
        /\ exists i, connections !! i = Some c
                     /\ forall j d, (j < i)%nat -> connections !! j = Some d ->
                                    conn_id d <> v)
  /\ (snd (TileEditor.handleConnectionChange conn_id connections v st) = None ->
      v = "" \/ forall c, c ∈ connections -> conn_id c <> v).
Proof.
  unfold TileEditor.handleConnectionChange. cbv zeta.
  destruct (Js.truthy v) eqn:Hv; cbn [fst snd].
  all: split; [done|]; split; [done|]; split; [done|]; split; [done|].
  all: split; [done|]; split; [done|]; split; [done|].
  all: split;
    [intros Hk; unfold TileEditor.isValid; cbn [st_name tileType setMeasures
       setDimensions setConnectionId st_connectionId dimensions measures];
     destruct (negb _); [done|];
     destruct Hk as [Hk|[Hk|Hk]]; rewrite Hk; simpl;
     by rewrite ?andb_false_r|].
  - split.
    + intros c Hc. split; [by apply truthy_iff|].
      induction connections as [|d ds IH]; [done|].
      simpl in Hc. case_bool_decide as Hd.
      * injection Hc as ->. split; [done|]. exists 0%nat. split; [done|]. lia.
      * destruct (IH Hc) as (Hid & i & Hi & Hfirst). split; [done|].
        exists (S i). split; [done|]. intros [|j] e Hj He.
        -- by injection He as <-.
        -- apply (Hfirst j); [lia | done].
    + intros Hnone. right. intros c Hin Hid.
      induction connections as [|d ds IH]; [by inversion Hin|].
      simpl in Hnone. case_bool_decide as Hd; [done|].
      apply elem_of_cons in Hin as [->|Hin]; [done | by apply IH].
  - split; [done|]. intros _. left.
    destruct v; [done|]. discriminate Hv.
Qed.

(** ** Editing a row by position on the second copy *)

(** X28.  Editing a text row by position on the second copy: an index
    outside [0, n) raises a TypeError; an index inside replaces the
    content of the row at that place and nothing else. *)
Theorem handleTextChange_spec (i : Z) (v : string) (st : EditorState) :
  (~ (0 <= i < Z.of_nat (length (textRows st))) ->
     TileEditorB.handleTextChange i v st = inl Js.TypeError)
  /\ (0 <= i < Z.of_nat (length (textRows st)) ->
      exists st',
        TileEditorB.handleTextChange i v st = inr st'
        /\ row_id <$> textRows st' = row_id <$> textRows st
        /\ row_type <$> textRows st' = row_type <$> textRows st
        /\ isQuery <$> textRows st' = isQuery <$> textRows st
        /\ content <$> textRows st' = <[Z.to_nat i := v]> (content <$> textRows st)
        /\ dimensions st' = dimensions st /\ measures st' = measures st
        /\ tileType st' = tileType st).
Proof.
  unfold TileEditorB.handleTextChange. split.
  - intros Hout. destruct (Z.ltb_spec i 0) as [|Hpos]; [done|].
    destruct (textRows st !! Z.to_nat i) as [row|] eqn:Hrow; [|done].
    apply lookup_lt_Some in Hrow. lia.
  - intros [Hlo Hhi]. destruct (Z.ltb_spec i 0) as [|_]; [lia|].
    destruct (lookup_lt_is_Some_2 (textRows st) (Z.to_nat i)) as [row Hrow]; [lia|].
    rewrite Hrow. eexists. split; [reflexivity|]. simpl.
    rewrite !list_fmap_insert. simpl.
    repeat split; try done; apply list_insert_id; by rewrite list_lookup_fmap, Hrow.
Qed.

Lemma handleTextChange_spec_witness :
  TileEditorB.handleTextChange 2 "late" Scenario.textTile = inl Js.TypeError.
Proof.
  apply (handleTextChange_spec 2 "late" Scenario.textTile). simpl. lia.
Defined.

(** X26.  Text and query tiles through save and reopen on the second
    copy.  The rows of a text tile, or of a query tile outside query
    mode, come back in order with their contents, each row without an
    identifier getting a generated one; the query-mode flag is not
    part of what is restored and stays as the editor had it.  A query
    tile in query mode comes back in query mode without rows, with its
    query text when that is not empty. *)
Theorem save_reopen_rows_second_copy (uuidv4 : nat -> string)
    (prev : option Tile) (dashboardId id : string)
    (net : CreateTileDto -> NetResult) (st st0 : EditorState) (dto : CreateTileDto) :
  sentData (snd (TileEditorB.handleSave prev dashboardId net st)) = Some dto ->
  (tileType st = "text" \/ (tileType st = "query" /\ isQueryMode st = false) ->
     tileType (TileEditorB.tileInitEffect uuidv4 (Some (tileOfDto id dto)) true st0)
       = tileType st
     /\ textRows (TileEditorB.tileInitEffect uuidv4 (Some (tileOfDto id dto)) true st0)
        = TileEditorB.fillIds uuidv4 0 (textRows st)
     /\ isQueryMode (TileEditorB.tileInitEffect uuidv4 (Some (tileOfDto id dto)) true st0)
        = isQueryMode st0
     /\ customQuery (TileEditorB.tileInitEffect uuidv4 (Some (tileOfDto id dto)) true st0)
        = customQuery st0)
  /\ (tileType st = "query" -> isQueryMode st = true ->
      tileType (TileEditorB.tileInitEffect uuidv4 (Some (tileOfDto id dto)) true st0)
        = "query"
      /\ textRows (TileEditorB.tileInitEffect uuidv4 (Some (tileOfDto id dto)) true st0)
         = []
      /\ isQueryMode (TileEditorB.tileInitEffect uuidv4 (Some (tileOfDto id dto)) true st0)
         = true
      /\ (customQuery st <> "" ->
          customQuery (TileEditorB.tileInitEffect uuidv4 (Some (tileOfDto id dto)) true st0)
          = customQuery st)
      /\ (st_connectionId st <> "" ->
          st_connectionId
            (TileEditorB.tileInitEffect uuidv4 (Some (tileOfDto id dto)) true st0)
          = st_connectionId st)).
Proof.
  intros Hsent.
  destruct (handleSaveB_sent _ _ _ _ _ Hsent) as (Hv & config & Hc & ->). clear Hsent.
  unfold TileEditorB.handleSave_config in Hc.
  revert Hc. generalize (TileEditorB.generateSqlQuery st). intros q Hc.
  unfold tileOfDto.
  cbn [dto_title dto_description dto_type dto_connectionId dto_config dto_position].
  erewrite tileInitEffectB_closed by reflexivity.
  cbn [tileType textRows isQueryMode customQuery st_connectionId].
  unfold uiTag. cbn [tile_config tile_type tile_connectionId].
  split.
  - intros [Hk|[Hk Hq]]; rewrite Hk in Hc; simpl in Hc.
    + injection Hc as <-. rewrite Hk.
      by destruct (Js.truthy (st_connectionId st)).
    + rewrite Hq in Hc. injection Hc as <-. rewrite Hk.
      by destruct (Js.truthy (st_connectionId st)).
  - intros Hk Hq. rewrite Hk, Hq in Hc. simpl in Hc. injection Hc as <-.
    destruct (Js.truthy (st_connectionId st)) eqn:Hconn;
      cbn [config_set_connectionId cfg_uiType cfg_textRows cfg_isQueryMode
           cfg_customQuery cfg_connectionId Js.orUndef].
    + split; [done|]. split; [done|]. split; [done|]. split.
      * intros Hne. apply truthy_iff in Hne.
        unfold orUndefined, Js.orElse. by rewrite Hne, Hne.
      * intros _. unfold orUndefined, Js.orElse. rewrite Hconn. simpl.
        unfold Js.orElse. by rewrite !Hconn.
    + split; [done|]. split; [done|]. split; [done|]. split.
      * intros Hne. apply truthy_iff in Hne.
        unfold orUndefined, Js.orElse. by rewrite Hne, Hne.
      * intros Hne. apply truthy_iff in Hne. congruence.
Qed.

Lemma save_reopen_rows_second_copy_witness :
  exists dto,
    sentData (snd (TileEditorB.handleSave None "dash-1" (fun _ => Resolved)
                     Scenario.textTile)) = Some dto
    /\ textRows (TileEditorB.tileInitEffect Scenario.constantUuid
                   (Some (tileOfDto "tile-1" dto)) true initialState)
       = TileEditorB.fillIds Scenario.constantUuid 0 (textRows Scenario.textTile).
Proof.
  eexists. split; [vm_compute; reflexivity|].
  apply (proj1 (save_reopen_rows_second_copy Scenario.constantUuid None "dash-1"
                  "tile-1" (fun _ => Resolved) Scenario.textTile initialState _
                  eq_refl)).
  by left.
Defined.

(** ** Switching the tile kind on the second copy *)

(** X29.  Switching the kind on the second copy keeps title,
    connection, selections and rows.  Clicking the active button again
    (no value) changes nothing.  A switch to any kind but query leaves
    query mode and discards the query text, so going to another kind
    and back to query loses it; a switch to table also sets the chart
    type to bar. *)
Theorem handleTileTypeChange_spec (k : string) (st : EditorState) :
  TileEditorB.handleTileTypeChange None st = st
  /\ TileEditorB.handleTileTypeChange (Some "") st = st
  /\ (k <> "" ->
      tileType (TileEditorB.handleTileTypeChange (Some k) st) = k
      /\ st_name (TileEditorB.handleTileTypeChange (Some k) st) = st_name st
      /\ st_connectionId (TileEditorB.handleTileTypeChange (Some k) st)
         = st_connectionId st
      /\ dimensions (TileEditorB.handleTileTypeChange (Some k) st) = dimensions st
      /\ measures (TileEditorB.handleTileTypeChange (Some k) st) = measures st
      /\ textRows (TileEditorB.handleTileTypeChange (Some k) st) = textRows st
      /\ chartType (TileEditorB.handleTileTypeChange (Some k) st)
         = (if bool_decide (k = "table") then "bar" else chartType st)
      /\ (k = "query" ->
          isQueryMode (TileEditorB.handleTileTypeChange (Some k) st) = isQueryMode st
          /\ customQuery (TileEditorB.handleTileTypeChange (Some k) st)
             = customQuery st)
      /\ (k <> "query" ->
          isQueryMode (TileEditorB.handleTileTypeChange (Some k) st) = false
          /\ customQuery (TileEditorB.handleTileTypeChange (Some k) st) = ""
          /\ customQuery
               (TileEditorB.handleTileTypeChange (Some "query")
                  (TileEditorB.handleTileTypeChange (Some k) st)) = "")).
Proof.
  split; [done|]. split; [done|]. intros Hk. apply truthy_iff in Hk.
  unfold TileEditorB.handleTileTypeChange. rewrite Hk.
  destruct (bool_decide (k = "query")) eqn:Hq; simpl negb; cbv iota.
  - apply bool_decide_eq_true in Hq.
    assert (bool_decide (k = "table") = false) as ->
      by (apply bool_decide_eq_false_2; by rewrite Hq).
    by repeat split.
  - apply bool_decide_eq_false in Hq.
    destruct (bool_decide (k = "table")); by repeat split.
Qed.

Lemma handleTileTypeChange_spec_witness :
  customQuery
    (TileEditorB.handleTileTypeChange (Some "query")
       (TileEditorB.handleTileTypeChange (Some "text")
          (setCustomQuery "select 1" (setIsQueryMode true
             (setTileType "query" initialState))))) = "".
Proof.
  apply (handleTileTypeChange_spec "text"
           (setCustomQuery "select 1" (setIsQueryMode true
              (setTileType "query" initialState)))).
  - discriminate.
  - discriminate.
Defined.
